(** * Shallow embedding of [metrics_analyzer.py] (class [MetricsAnalyzer])

    The analyzer is an [ast.NodeVisitor]: [visit_ClassDef] populates a set of
    dictionaries (several of them [defaultdict]s), and the metric functions
    [calculate_dit], [calculate_cbo] and [calculate_lcom] read them back.

    Modelling choices:
    - Python dicts are stdpp [gmap]s keyed by [string]; sets are [gset string].
    - A read [d[k]] of a [defaultdict] inserts the default value when [k] is
      missing; this is [dd_read], which returns the value and the updated map.
    - [ast.walk(method_node)] is modelled by the list of nodes it yields, each
      classified the way [analyze_method] inspects it ([expr_node]).
    - A module is the sequence of [ClassDef] nodes in the order the visitor
      reaches them ([visit] then [generic_visit] is a pre-order walk).
    - The [while] loop of [calculate_dit] may not terminate; it is run with a
      fuel bound, [None] meaning "has not returned within that many steps". *)

From Stdlib Require Import String ZArith List Lia.
From stdpp Require Import base gmap sets list strings pretty.

Import ListNotations.
Local Open Scope Z_scope.
Local Open Scope nat_scope.

(** ** Syntax model: the parts of Python's [ast] the analyzer inspects *)

(** A node yielded by [ast.walk] inside a method.  [Attribute (Some x) a] is
    [x.a] where the value is an [ast.Name] with id [x]; [Attribute None a] is an
    attribute access on any other expression; [OtherNode kind] is any node of
    another class (its [ast] class name, e.g. "If"). *)
Inductive expr_node :=
| Attribute (value_name : option string) (attr : string)
| Name (id : string)
| OtherNode (kind : string).

Record FunctionDef := mkFunctionDef {
  fd_name : string;
  fd_walk : list expr_node
}.

(** A base-class expression of a [ClassDef]: an [ast.Name] or anything else
    (an [ast.Attribute] such as [mod.Base], a subscript, a call, ...). *)
Inductive base_expr :=
| BaseName (id : string)
| BaseOther.

Inductive body_item :=
| FunctionItem (f : FunctionDef)
| OtherItem.

Record ClassDef := mkClassDef {
  cd_name : string;
  cd_bases : list base_expr;
  cd_body : list body_item
}.

Definition module := list ClassDef.

(** ** Analyzer state (the attributes set in [__init__]) *)

(** The value stored in [self.classes[name]]. *)
Record class_info := mkClassInfo {
  ci_methods : list string;
  ci_attributes : gset string;
  ci_base_classes : list string;
  ci_lines : nat
}.

Record MetricsAnalyzer := mkAnalyzer {
  classes : gmap string class_info;
  current_class : option string;
  inheritance_tree : gmap string string;
  coupling : gmap string (gset string);
  methods_per_class : gmap string (list string);
  attributes_per_class : gmap string (gset string);
  method_attribute_usage : gmap string (gmap string (gset string))
}.

(** [MetricsAnalyzer.__init__] *)
Definition init : MetricsAnalyzer :=
  mkAnalyzer ∅ None ∅ ∅ ∅ ∅ ∅.

Definition set_classes (v : gmap string class_info) (s : MetricsAnalyzer) :=
  mkAnalyzer v (current_class s) (inheritance_tree s) (coupling s)
    (methods_per_class s) (attributes_per_class s) (method_attribute_usage s).
Definition set_current_class (v : option string) (s : MetricsAnalyzer) :=
  mkAnalyzer (classes s) v (inheritance_tree s) (coupling s)
    (methods_per_class s) (attributes_per_class s) (method_attribute_usage s).
Definition set_inheritance_tree (v : gmap string string) (s : MetricsAnalyzer) :=
  mkAnalyzer (classes s) (current_class s) v (coupling s)
    (methods_per_class s) (attributes_per_class s) (method_attribute_usage s).
Definition set_coupling (v : gmap string (gset string)) (s : MetricsAnalyzer) :=
  mkAnalyzer (classes s) (current_class s) (inheritance_tree s) v
    (methods_per_class s) (attributes_per_class s) (method_attribute_usage s).
Definition set_methods_per_class (v : gmap string (list string)) (s : MetricsAnalyzer) :=
  mkAnalyzer (classes s) (current_class s) (inheritance_tree s) (coupling s)
    v (attributes_per_class s) (method_attribute_usage s).
Definition set_attributes_per_class (v : gmap string (gset string)) (s : MetricsAnalyzer) :=
  mkAnalyzer (classes s) (current_class s) (inheritance_tree s) (coupling s)
    (methods_per_class s) v (method_attribute_usage s).
Definition set_method_attribute_usage (v : gmap string (gmap string (gset string)))
    (s : MetricsAnalyzer) :=
  mkAnalyzer (classes s) (current_class s) (inheritance_tree s) (coupling s)
    (methods_per_class s) (attributes_per_class s) v.

(** ** [defaultdict] operations *)

(** [d[k]] on a [defaultdict]: the stored value, or the default, which is
    then inserted under [k]. *)
Definition dd_read {V} (m : gmap string V) (k : string) (d : V) : V * gmap string V :=
  match m !! k with
  | Some v => (v, m)
  | None => (d, <[k := d]> m)
  end.

(** [d[k].add(x)] on a [defaultdict(set)]. *)
Definition dd_set_add (m : gmap string (gset string)) (k x : string) :=
  <[k := {[x]} ∪ default ∅ (m !! k)]> m.

(** [d[k].append(x)] on a [defaultdict(list)]. *)
Definition dd_list_append (m : gmap string (list string)) (k x : string) :=
  <[k := default [] (m !! k) ++ [x]]> m.

(** [d[k1][k2].add(x)] on a [defaultdict(lambda: defaultdict(set))]. *)
Definition dd2_set_add (m : gmap string (gmap string (gset string))) (k1 k2 x : string) :=
  <[k1 := dd_set_add (default ∅ (m !! k1)) k2 x]> m.

(** ** [analyze_method] *)

(** The hard-coded list of class names recognised as coupling targets. *)
Definition known_class_names : list string :=
  ["Student"; "Course"; "Lecturer"; "Registrar"; "Person"].

(** The loop body of [analyze_method] for one node of [ast.walk(method_node)].
    The third [if] of the source only executes [pass]. *)
Definition analyze_node (class_name method_name : string)
    (s : MetricsAnalyzer) (n : expr_node) : MetricsAnalyzer :=
  match n with
  | Attribute (Some v) attr_name =>
      if decide (v = "self")%string then
        set_method_attribute_usage
          (dd2_set_add (method_attribute_usage s) class_name method_name attr_name)
          (set_attributes_per_class
             (dd_set_add (attributes_per_class s) class_name attr_name) s)
      else s
  | Attribute None _ => s
  | Name id =>
      if decide (id ∈ known_class_names) then
        if decide (id ≠ class_name) then
          set_coupling (dd_set_add (coupling s) class_name id) s
        else s
      else s
  | OtherNode _ => s
  end.

Definition analyze_method (class_name : string) (method_node : FunctionDef)
    (s : MetricsAnalyzer) : MetricsAnalyzer :=
  fold_left (analyze_node class_name (fd_name method_node)) (fd_walk method_node) s.

(** ** [visit_ClassDef] *)

Definition base_class_label (b : base_expr) : string :=
  match b with
  | BaseName id => id
  | BaseOther => "object"
  end.

Definition function_names (body : list body_item) : list string :=
  omap (fun it => match it with FunctionItem f => Some (fd_name f) | OtherItem => None end) body.

(** [for base in node.bases: if isinstance(base, ast.Name):
       self.inheritance_tree[node.name] = base.id] *)
Definition store_inheritance (name : string) (bases : list base_expr)
    (t : gmap string string) : gmap string string :=
  fold_left (fun t b => match b with
                        | BaseName id => <[name := id]> t
                        | BaseOther => t
                        end) bases t.

(** One iteration of [for item in node.body]. *)
Definition visit_item (name : string) (s : MetricsAnalyzer) (it : body_item) : MetricsAnalyzer :=
  match it with
  | FunctionItem f =>
      analyze_method name f
        (set_methods_per_class (dd_list_append (methods_per_class s) name (fd_name f)) s)
  | OtherItem => s
  end.

(** [self.classes[node.name]] is a fresh dict whose ['methods'] list receives
    one [append] per [FunctionDef] of the body; its final value is stored
    directly.  [generic_visit] is modelled by the module being the flattened
    sequence of [ClassDef]s. *)
Definition visit_ClassDef (c : ClassDef) (s : MetricsAnalyzer) : MetricsAnalyzer :=
  let name := cd_name c in
  let info := mkClassInfo (function_names (cd_body c)) ∅
                (map base_class_label (cd_bases c)) (length (cd_body c)) in
  let s1 := set_classes (<[name := info]> (classes s)) (set_current_class (Some name) s) in
  let s2 := set_inheritance_tree (store_inheritance name (cd_bases c) (inheritance_tree s1)) s1 in
  let s3 := fold_left (visit_item name) (cd_body c) s2 in
  set_current_class None s3.

(** [analyzer.visit(tree)] on a fresh analyzer. *)
Definition build (m : module) : MetricsAnalyzer :=
  fold_left (fun s c => visit_ClassDef c s) m init.

(** ** Metric functions *)

(** [while current in self.inheritance_tree: depth += 1;
       current = self.inheritance_tree[current]], with a bound on the number
    of loop tests. *)
Fixpoint dit_loop (fuel : nat) (tree : gmap string string) (current : string)
    (depth : nat) : option nat :=
  match fuel with
  | O => None
  | S f =>
      match tree !! current with
      | None => Some depth
      | Some parent => dit_loop f tree parent (S depth)
      end
  end.

Definition calculate_dit (fuel : nat) (s : MetricsAnalyzer) (class_name : string) : option nat :=
  dit_loop fuel (inheritance_tree s) class_name 0.

(** [len(self.coupling[class_name])]; the read inserts a default entry. *)
Definition calculate_cbo (class_name : string) (s : MetricsAnalyzer) : nat * MetricsAnalyzer :=
  let '(v, m) := dd_read (coupling s) class_name ∅ in
  (size v, set_coupling m s).

(** The value returned by [calculate_lcom]: the float [0.0] of the early
    return, or the [int] [max(p - q, 0)]. *)
Inductive lcom_value :=
| LcomFloatZero
| LcomInt (z : Z).

Definition lcom_num (v : lcom_value) : Z :=
  match v with LcomFloatZero => 0%Z | LcomInt z => z end.

Definition attrs_get (method_attrs : gmap string (gset string)) (m : string) : gset string :=
  default ∅ (method_attrs !! m).

(** [for method2 in methods[i+1:]] for a fixed [method1]. *)
Fixpoint lcom_inner (method_attrs : gmap string (gset string)) (method1 : string)
    (rest : list string) (pq : nat * nat) : nat * nat :=
  match rest with
  | [] => pq
  | method2 :: rest' =>
      let attrs1 := attrs_get method_attrs method1 in
      let attrs2 := attrs_get method_attrs method2 in
      let pq' := if decide (attrs1 ∩ attrs2 = ∅) then (S pq.1, pq.2) else (pq.1, S pq.2) in
      lcom_inner method_attrs method1 rest' pq'
  end.

(** [for i, method1 in enumerate(methods)]: [methods[i+1:]] is the suffix
    after [method1]. *)
Fixpoint lcom_outer (method_attrs : gmap string (gset string)) (methods : list string)
    (pq : nat * nat) : nat * nat :=
  match methods with
  | [] => pq
  | method1 :: rest => lcom_outer method_attrs rest (lcom_inner method_attrs method1 rest pq)
  end.

Definition calculate_lcom (class_name : string) (s : MetricsAnalyzer) : lcom_value * MetricsAnalyzer :=
  let '(methods, mpc) := dd_read (methods_per_class s) class_name [] in
  let s1 := set_methods_per_class mpc s in
  if decide (length methods <= 1) then (LcomFloatZero, s1)
  else
    let '(method_attrs, mau) := dd_read (method_attribute_usage s1) class_name ∅ in
    let s2 := set_method_attribute_usage mau s1 in
    let '(p, q) := lcom_outer method_attrs methods (0, 0) in
    (LcomInt (Z.max (Z.of_nat p - Z.of_nat q) 0), s2).

(** ** [generate_report] *)

(** Threshold checks of the object-oriented metrics table (source lines
    149-157), with the limits written in the code. *)
Definition report_issues (cbo : nat) (lcom : Z) (methods : nat) : list string :=
  (if decide (3 < cbo) then ["High coupling"] else []) ++
  (if decide (5 < lcom)%Z then ["Low cohesion"] else []) ++
  (if decide (7 < methods) then ["Too many methods"] else []).

(** [", ".join(issues) if issues else "OK"] *)
Definition issue_str (cbo : nat) (lcom : Z) (methods : nat) : string :=
  match report_issues cbo lcom methods with
  | [] => "OK"
  | issues => String.concat ", " issues
  end.

(** [s * n] for a string [s]. *)
Definition str_mul (s : string) (n : nat) : string :=
  String.concat "" (replicate n s).

(** Format spec [{x:w}]: strings are padded on the right, numbers on the left. *)
Definition ljust (w : nat) (s : string) : string :=
  s +:+ str_mul " " (w - String.length s).
Definition rjust (w : nat) (s : string) : string :=
  str_mul " " (w - String.length s) +:+ s.

Definition format_lcom (v : lcom_value) : string :=
  match v with
  | LcomFloatZero => "0.0"
  | LcomInt z => pretty z
  end.

Definition report_header : list string :=
  [str_mul "=" 80; "PART A: METRICS ANALYSIS - ORIGINAL CODE"; str_mul "=" 80; ""].

Definition cc_section : list string :=
  ["1. CYCLOMATIC COMPLEXITY (CC)";
   str_mul "-" 80;
   "Method/Function                              | CC  | Grade | Issues";
   str_mul "-" 80;
   "Student.calculate_performance                | 17  | C     | HIGH - Needs refactoring";
   "Student.register_course                      | 3   | A     | OK";
   "Registrar.full_report                        | 4   | A     | OK";
   "main()                                       | 1   | A     | OK (but long)";
   ""].

Definition loc_section : list string :=
  ["2. LINES OF CODE (LOC)";
   str_mul "-" 80;
   "Total LOC:                174";
   "Logical LOC (LLOC):       132";
   "Source LOC (SLOC):        126";
   "Comments:                 0 (0%)";
   ""].

Definition oo_header : list string :=
  ["3. OBJECT-ORIENTED METRICS";
   str_mul "-" 80;
   "Class      | DIT | CBO | LCOM | Methods | Attributes | Issues";
   str_mul "-" 80].

Definition problem_section : list string :=
  [""; "4. PROBLEM AREAS IDENTIFIED"; str_mul "-" 80;
   "✗ Student.calculate_performance: CC=17 (should be < 10)";
   "  - Too many conditional branches";
   "  - Mixing GPA calculation and attendance calculation";
   "  - Performance evaluation logic embedded";
   "";
   "✗ High coupling between classes:";
   "  - Course directly modifies Student (bidirectional coupling)";
   "  - Lecturer directly modifies Student grades";
   "  - Registrar depends on all other classes";
   "";
   "✗ Low cohesion in Student class:";
   "  - Mixing data storage, business logic, and presentation";
   "  - calculate_performance does too many things";
   "";
   "✗ Lack of abstraction:";
   "  - Grade calculation logic hard-coded";
   "  - No separation of concerns";
   "  - Direct attribute access violates encapsulation";
   ""].

Definition report_classes : list string :=
  ["Person"; "Student"; "Course"; "Lecturer"; "Registrar"].

(** One row of the table: the body of [if class_name in self.classes:].
    The reads of [methods_per_class] and [attributes_per_class] are
    [defaultdict] reads. *)
Definition report_row (fuel : nat) (class_name : string) (s : MetricsAnalyzer)
    : option (string * MetricsAnalyzer) :=
  match calculate_dit fuel s class_name with
  | None => None
  | Some dit =>
      let '(cbo, s1) := calculate_cbo class_name s in
      let '(lcom, s2) := calculate_lcom class_name s1 in
      let '(ms, mpc) := dd_read (methods_per_class s2) class_name [] in
      let s3 := set_methods_per_class mpc s2 in
      let '(attrs, apc) := dd_read (attributes_per_class s3) class_name ∅ in
      let s4 := set_attributes_per_class apc s3 in
      let methods := length ms in
      let row :=
        ljust 10 class_name +:+ " | " +:+ rjust 3 (pretty dit) +:+ " | " +:+
        rjust 3 (pretty cbo) +:+ " | " +:+ rjust 4 (format_lcom lcom) +:+ " | " +:+
        rjust 7 (pretty methods) +:+ " | " +:+ rjust 10 (pretty (size attrs)) +:+ " | " +:+
        issue_str cbo (lcom_num lcom) methods in
      Some (row, s4)
  end.

Fixpoint report_rows (fuel : nat) (names : list string) (s : MetricsAnalyzer)
    : option (list string * MetricsAnalyzer) :=
  match names with
  | [] => Some ([], s)
  | class_name :: rest =>
      if decide (is_Some (classes s !! class_name)) then
        match report_row fuel class_name s with
        | None => None
        | Some (row, s') =>
            match report_rows fuel rest s' with
            | None => None
            | Some (rows, s'') => Some (row :: rows, s'')
            end
        end
      else report_rows fuel rest s
  end.

(** The list [report] of [generate_report], and the analyzer state after it. *)
Definition generate_report_lines (fuel : nat) (s : MetricsAnalyzer)
    : option (list string * MetricsAnalyzer) :=
  match report_rows fuel report_classes s with
  | None => None
  | Some (rows, s') =>
      Some (report_header ++ cc_section ++ loc_section ++ oo_header ++ rows ++ problem_section, s')
  end.

(** [generate_report]: ["\n".join(report)]. *)
Definition generate_report (fuel : nat) (s : MetricsAnalyzer) : option string :=
  match generate_report_lines fuel s with
  | None => None
  | Some (lines, _) => Some (String.concat "
" lines)
  end.

(** ** Sample inputs *)

Definition fn (name : string) (walk : list expr_node) : body_item :=
  FunctionItem (mkFunctionDef name walk).

(** Scenario A/B of the specification: [Person] with no base and [Student(Person)]
    whose methods touch [self.courses] and [self.grades]. *)
Definition sample_module : module :=
  [mkClassDef "Person" [] [fn "__init__" [Attribute (Some "self") "name"]];
   mkClassDef "Student" [BaseName "Person"]
     [fn "register_course" [Attribute (Some "self") "courses"; Name "Course"];
      fn "add_grade" [Attribute (Some "self") "grades"; Name "Course"; Name "Lecturer"]]].

(** ** Views of the builder's output *)

(** [ast.walk] nodes read by [analyze_method]: the attribute of a
    [self.<attr>] access, and a recognised coupling reference. *)
Definition self_attr (n : expr_node) : option string :=
  match n with
  | Attribute (Some v) a => if decide (v = "self")%string then Some a else None
  | _ => None
  end.

Definition name_ref (class_name : string) (n : expr_node) : option string :=
  match n with
  | Name id => if decide (id ∈ known_class_names ∧ id ≠ class_name) then Some id else None
  | _ => None
  end.

Definition self_attrs (f : FunctionDef) : gset string :=
  list_to_set (omap self_attr (fd_walk f)).

Definition method_refs (class_name : string) (f : FunctionDef) : gset string :=
  list_to_set (omap (name_ref class_name) (fd_walk f)).

Definition declared_methods (body : list body_item) : list FunctionDef :=
  omap (fun it => match it with FunctionItem f => Some f | OtherItem => None end) body.

(** The [ClassDef]s of a module that carry a given name (a name may be
    declared more than once; the builder accumulates them). *)
Definition defs_named (m : module) (k : string) : list ClassDef :=
  filter (fun c => cd_name c = k) m.

(** Declared methods of [k], in declaration order, as [methods_per_class]
    accumulates them. *)
Definition methods_of (m : module) (k : string) : list FunctionDef :=
  mjoin (map (fun c => declared_methods (cd_body c)) (defs_named m k)).

(** Union of the [self] attributes of all methods of [k] called [j]: the set
    [method_attribute_usage[k][j]] collects. *)
Definition merged_attrs (m : module) (k j : string) : gset string :=
  ⋃ (map self_attrs (filter (fun f => fd_name f = j) (methods_of m k))).

(** Names [coupling[k]] collects. *)
Definition known_refs (m : module) (k : string) : gset string :=
  ⋃ (map (method_refs k) (methods_of m k)).

(** [n]-th ancestor along recorded parent links ([None] once a name without a
    recorded parent has been passed). *)
Fixpoint nth_parent (tree : gmap string string) (k : string) (n : nat) : option string :=
  match n with
  | O => Some k
  | S n' =>
      match tree !! k with
      | Some p => nth_parent tree p n'
      | None => None
      end
  end.

(** The last base that is an [ast.Name]: the one left in [inheritance_tree]. *)
Fixpoint last_name_base (bases : list base_expr) : option string :=
  match bases with
  | [] => None
  | BaseName id :: rest =>
      match last_name_base rest with Some p => Some p | None => Some id end
  | BaseOther :: rest => last_name_base rest
  end.

(** Analyzer states the program can reach: class declarations visited,
    metrics computed and reports generated, in any order. *)
Inductive reachable : MetricsAnalyzer -> Prop :=
| reach_init : reachable init
| reach_visit c s : reachable s -> reachable (visit_ClassDef c s)
| reach_cbo k s : reachable s -> reachable (snd (calculate_cbo k s))
| reach_lcom k s : reachable s -> reachable (snd (calculate_lcom k s))
| reach_report fuel s lines s' :
    reachable s -> generate_report_lines fuel s = Some (lines, s') -> reachable s'.

(** ** [defaultdict] views of the analyzer state

    What a [defaultdict] read returns for a key, without the insertion. *)
Definition cpl_view (s : MetricsAnalyzer) (k : string) : gset string :=
  default ∅ (coupling s !! k).
Definition mpc_view (s : MetricsAnalyzer) (k : string) : list string :=
  default [] (methods_per_class s !! k).
Definition mau_view (s : MetricsAnalyzer) (k j : string) : gset string :=
  default ∅ (default ∅ (method_attribute_usage s !! k) !! j).

(** [m'] is [m] with, at most, default entries added for missing keys. *)
Definition dd_extends {V} (m m' : gmap string V) (d : V) : Prop :=
  forall j, m' !! j = m !! j \/ (m !! j = None /\ m' !! j = Some d).

(** How a metric computation may change the analyzer state. *)
Definition metric_frame (s s' : MetricsAnalyzer) : Prop :=
  classes s' = classes s /\ current_class s' = current_class s /\
  inheritance_tree s' = inheritance_tree s /\
  attributes_per_class s' = attributes_per_class s /\
  dd_extends (coupling s) (coupling s') ∅ /\
  dd_extends (methods_per_class s) (methods_per_class s') [] /\
  dd_extends (method_attribute_usage s) (method_attribute_usage s') ∅.

(** Every entry about a name that no visited declaration registered is empty. *)
Definition registry_closed (s : MetricsAnalyzer) : Prop :=
  forall k, classes s !! k = None ->
  inheritance_tree s !! k = None /\ cpl_view s k = ∅ /\ mpc_view s k = [].

Definition apc_view (s : MetricsAnalyzer) (k : string) : gset string :=
  default ∅ (attributes_per_class s !! k).

(** How generating report rows may change the analyzer state: only default
    entries are added, now also to [attributes_per_class]. *)
Definition view_frame (s s' : MetricsAnalyzer) : Prop :=
  classes s' = classes s /\ inheritance_tree s' = inheritance_tree s /\
  dd_extends (coupling s) (coupling s') ∅ /\
  dd_extends (methods_per_class s) (methods_per_class s') [] /\
  dd_extends (attributes_per_class s) (attributes_per_class s') ∅ /\
  dd_extends (method_attribute_usage s) (method_attribute_usage s') ∅.

(** The f-string of a table row ([report.append(f"{class_name:10} | ...")]). *)
Definition row_text (class_name : string) (dit cbo : nat) (lcom : lcom_value)
    (methods attrs : nat) : string :=
  ljust 10 class_name +:+ " | " +:+ rjust 3 (pretty dit) +:+ " | " +:+
  rjust 3 (pretty cbo) +:+ " | " +:+ rjust 4 (format_lcom lcom) +:+ " | " +:+
  rjust 7 (pretty methods) +:+ " | " +:+ rjust 10 (pretty attrs) +:+ " | " +:+
  issue_str cbo (lcom_num lcom) methods.

(** The rows of the table, every metric evaluated on the state the report
    starts from. *)
Fixpoint rows_of (fuel : nat) (s : MetricsAnalyzer) (names : list string) : option (list string) :=
  match names with
  | [] => Some []
  | n :: rest =>
      if decide (is_Some (classes s !! n)) then
        match calculate_dit fuel s n, rows_of fuel s rest with
        | Some d, Some rows =>
            Some (row_text n d (fst (calculate_cbo n s)) (fst (calculate_lcom n s))
                    (length (mpc_view s n)) (size (apc_view s n)) :: rows)
        | _, _ => None
        end
      else rows_of fuel s rest
  end.

(** [analyze_file]: parse (the module), visit, report. *)
Definition analyze_file (fuel : nat) (m : module) : option string :=
  generate_report fuel (build m).

(** The value [visit_ClassDef] stores in [self.classes[node.name]]. *)
Definition class_info_of (c : ClassDef) : class_info :=
  mkClassInfo (function_names (cd_body c)) ∅ (map base_class_label (cd_bases c))
    (length (cd_body c)).

Definition oset (o : option string) : gset string :=
  match o with Some x => {[x]} | None => ∅ end.

(** ** Definitions following the specification's words (for comparison) *)

(** Unordered pairs of distinct positions [i < j] of a list. *)
Fixpoint pairs {A} (l : list A) : list (A * A) :=
  match l with
  | [] => []
  | x :: rest => map (pair x) rest ++ pairs rest
  end.

Definition spec_P (sets : list (gset string)) : nat :=
  length (filter (fun ab => ab.1 ∩ ab.2 = ∅) (pairs sets)).
Definition spec_Q (sets : list (gset string)) : nat :=
  length (filter (fun ab => ab.1 ∩ ab.2 ≠ ∅) (pairs sets)).

(** LCOM of a class whose declared methods have the given attribute sets. *)
Definition spec_lcom (sets : list (gset string)) : Z :=
  Z.max (Z.of_nat (spec_P sets) - Z.of_nat (spec_Q sets)) 0.

(** Names of classes registered by a module. *)
Definition registry_names (m : module) : list string := map cd_name m.

(** Registered class names other than [k] referenced as identifiers by the
    methods of [k]. *)
Definition spec_registry_refs (m : module) (k : string) : gset string :=
  ⋃ (map (fun f => list_to_set
            (omap (fun n => match n with
                            | Name id => if decide (id ∈ registry_names m ∧ id ≠ k)
                                         then Some id else None
                            | _ => None
                            end) (fd_walk f)))
         (methods_of m k)).

(** Decision points of a method body: conditional branches, loops,
    exception handlers and short-circuit boolean operators. *)
Definition spec_decision_kinds : list string :=
  ["If"; "For"; "AsyncFor"; "While"; "ExceptHandler"; "BoolOp"].

Definition spec_decision_points (f : FunctionDef) : nat :=
  length (filter (fun n => match n with
                           | OtherNode kind => bool_decide (kind ∈ spec_decision_kinds)
                           | _ => false
                           end = true) (fd_walk f)).

Definition spec_cyclomatic (f : FunctionDef) : nat := 1 + spec_decision_points f.

Inductive Flag := HighCoupling | LowCohesion | TooManyMethods.

Definition flag_label (f : Flag) : string :=
  match f with
  | HighCoupling => "High coupling"
  | LowCohesion => "Low cohesion"
  | TooManyMethods => "Too many methods"
  end.

Record Config := mkConfig {
  cboHighCoupling : nat;
  lcomLowCohesion : Z;
  maxMethodCount : nat
}.

Definition default_config : Config := mkConfig 3 5 7.

(** [evaluate(classEntity, metricsVector, config)], flags in the listed order. *)
Definition spec_evaluate (cfg : Config) (cbo : nat) (lcom : Z) (methods : nat) : list Flag :=
  (if decide (cboHighCoupling cfg < cbo) then [HighCoupling] else []) ++
  (if decide (lcomLowCohesion cfg < lcom)%Z then [LowCohesion] else []) ++
  (if decide (maxMethodCount cfg < methods) then [TooManyMethods] else []).

Definition spec_render_flags (fs : list Flag) : string :=
  match fs with
  | [] => "OK"
  | _ => String.concat ", " (map flag_label fs)
  end.

(** ** Concrete inputs *)

(** [class A(B): pass] and [class B(A): pass]. *)
Definition cyclic_module : module :=
  [mkClassDef "A" [BaseName "B"] [OtherItem]; mkClassDef "B" [BaseName "A"] [OtherItem]].

(** [class Student(Person)] where [Person] is not declared in the module. *)
Definition unknown_base_module : module :=
  [mkClassDef "Student" [BaseName "Person"]
     [fn "register_course" [OtherNode "FunctionDef"; OtherNode "arguments"; OtherNode "arg";
                            Attribute (Some "self") "courses"; Name "self"]]].

(** [class Student(Person, Serializable)]. *)
Definition multi_base_class : ClassDef :=
  mkClassDef "Student" [BaseName "Person"; BaseName "Serializable"] [OtherItem].

(** [class Student:] with [def register_course(self): pass]. *)
Definition plain_register_course : FunctionDef :=
  mkFunctionDef "register_course"
    [OtherNode "FunctionDef"; OtherNode "arguments"; OtherNode "arg"; OtherNode "Pass"].

Definition plain_student_module : module :=
  [mkClassDef "Student" [] [FunctionItem plain_register_course]].

(** A property with a getter and a setter of the same name:
    [@property def balance(self): return self._balance],
    [@balance.setter def balance(self, v): self._history.append(v)],
    [def log(self): print(self._history)]. *)
Definition account_class : ClassDef :=
  mkClassDef "Account" []
    [fn "balance" [OtherNode "FunctionDef"; Name "property"; OtherNode "Return";
                   Attribute (Some "self") "_balance"; Name "self"];
     fn "balance" [OtherNode "FunctionDef"; Attribute (Some "balance") "setter";
                   Attribute None "append"; Attribute (Some "self") "_history"; Name "self";
                   Name "v"];
     fn "log" [OtherNode "FunctionDef"; Name "print"; Attribute (Some "self") "_history";
               Name "self"]].

Definition account_module : module := [account_class].

(** [class Foo: pass] and [class Bar:] whose method builds a [Foo()]. *)
Definition foo_bar_module : module :=
  [mkClassDef "Foo" [] [OtherItem];
   mkClassDef "Bar" [] [fn "make" [OtherNode "FunctionDef"; OtherNode "Call"; Name "Foo"]]].

(** [class Person: pass] *)
Definition person_module : module := [mkClassDef "Person" [] [OtherItem]].

(** * Proofs *)

(** ** The [while] loop of [calculate_dit] *)

Lemma nth_parent_add (t : gmap string string) k a b :
  nth_parent t k (a + b) = nth_parent t k a ≫= fun j => nth_parent t j b.
Proof.
  revert k; induction a as [|a IH]; intros k; simpl; [done|].
  destruct (t !! k); simpl; [apply IH|done].
Qed.

Lemma nth_parent_prefix (t : gmap string string) k n m :
  m <= n -> is_Some (nth_parent t k n) -> is_Some (nth_parent t k m).
Proof.
  intros Hle. replace n with (m + (n - m)) by lia. rewrite nth_parent_add.
  destruct (nth_parent t k m); [eauto|]. intros [? H]; discriminate.
Qed.

(** A chain that meets the same name twice never ends. *)
Lemma nth_parent_revisit (t : gmap string string) k j n1 n2 :
  n1 < n2 -> nth_parent t k n1 = Some j -> nth_parent t k n2 = Some j ->
  forall m, is_Some (nth_parent t k m).
Proof.
  intros Hlt H1 H2 m. induction m as [m IH] using lt_wf_ind.
  destruct (decide (m <= n2)) as [Hle|Hgt].
  - apply (nth_parent_prefix _ _ n2); [lia|]. rewrite H2; eauto.
  - replace m with (n2 + (m - n2)) by lia. rewrite nth_parent_add, H2. simpl.
    assert (Hs : is_Some (nth_parent t k (n1 + (m - n2)))) by (apply IH; lia).
    rewrite nth_parent_add, H1 in Hs. exact Hs.
Qed.

Lemma dit_loop_sound fuel (t : gmap string string) k d r :
  dit_loop fuel t k d = Some r ->
  d <= r /\ exists j, nth_parent t k (r - d) = Some j /\ t !! j = None.
Proof.
  revert k d; induction fuel as [|f IH]; intros k d H; simpl in H; [done|].
  destruct (t !! k) as [p|] eqn:E.
  - apply IH in H as [Hle [j [Hj Hn]]]. split; [lia|]. exists j.
    replace (r - d) with (S (r - S d)) by lia. simpl. rewrite E. done.
  - injection H as <-. split; [lia|]. exists k. rewrite Nat.sub_diag. done.
Qed.

Lemma dit_loop_complete (t : gmap string string) n :
  forall k j d fuel, nth_parent t k n = Some j -> t !! j = None -> n < fuel ->
  dit_loop fuel t k d = Some (d + n).
Proof.
  induction n as [|n IH]; intros k j d fuel Hn Hj Hf;
    destruct fuel as [|f]; try lia; simpl in *.
  - injection Hn as <-. rewrite Hj. f_equal; lia.
  - destruct (t !! k) as [p|] eqn:E; [|done].
    rewrite (IH p j (S d) f) by (done || lia). f_equal; lia.
Qed.

Lemma dit_loop_diverges (t : gmap string string) k :
  (forall m, is_Some (nth_parent t k m)) -> forall fuel d, dit_loop fuel t k d = None.
Proof.
  intros Hall fuel d. destruct (dit_loop fuel t k d) as [r|] eqn:E; [|done].
  apply dit_loop_sound in E as [Hle [j [Hj Hn]]].
  destruct (Hall (r - d + 1)) as [x Hx].
  rewrite nth_parent_add, Hj in Hx. simpl in Hx. rewrite Hn in Hx. discriminate.
Qed.

(** ** Frame facts of the builder *)

Lemma analyze_node_frame c mn s n :
  classes (analyze_node c mn s n) = classes s /\
  current_class (analyze_node c mn s n) = current_class s /\
  inheritance_tree (analyze_node c mn s n) = inheritance_tree s /\
  methods_per_class (analyze_node c mn s n) = methods_per_class s.
Proof.
  destruct n as [[v|] a|id|kind]; simpl; repeat case_decide; simpl; auto.
Qed.

Lemma analyze_method_frame c f s :
  classes (analyze_method c f s) = classes s /\
  current_class (analyze_method c f s) = current_class s /\
  inheritance_tree (analyze_method c f s) = inheritance_tree s /\
  methods_per_class (analyze_method c f s) = methods_per_class s.
Proof.
  unfold analyze_method. generalize (fd_walk f). intros l. revert s.
  induction l as [|n l IH]; intros s; simpl; [auto|].
  destruct (IH (analyze_node c (fd_name f) s n)) as (-> & -> & -> & ->).
  apply analyze_node_frame.
Qed.

Lemma visit_items_frame name body s :
  classes (fold_left (visit_item name) body s) = classes s /\
  current_class (fold_left (visit_item name) body s) = current_class s /\
  inheritance_tree (fold_left (visit_item name) body s) = inheritance_tree s.
Proof.
  revert s; induction body as [|it body IH]; intros s; simpl; [auto|].
  destruct (IH (visit_item name s it)) as (-> & -> & ->).
  destruct it as [f|]; simpl; [|auto].
  destruct (analyze_method_frame name f
    (set_methods_per_class (dd_list_append (methods_per_class s) name (fd_name f)) s))
    as (-> & -> & -> & _). auto.
Qed.

Lemma store_inheritance_lookup name bases t :
  store_inheritance name bases t !! name =
  match last_name_base bases with Some p => Some p | None => t !! name end.
Proof.
  unfold store_inheritance. revert t; induction bases as [|b bases IH]; intros t; simpl; [done|].
  destruct b as [id|]; rewrite IH; [|done].
  destruct (last_name_base bases); [done|]. apply lookup_insert_eq.
Qed.

Lemma store_inheritance_lookup_ne name bases t k :
  k ≠ name -> store_inheritance name bases t !! k = t !! k.
Proof.
  intros Hne. unfold store_inheritance. revert t; induction bases as [|b bases IH]; intros t;
    simpl; [done|].
  destruct b as [id|]; rewrite IH; [|done]. by apply lookup_insert_ne.
Qed.

Lemma visit_ClassDef_inheritance c s k :
  inheritance_tree (visit_ClassDef c s) !! k =
  if decide (k = cd_name c) then
    match last_name_base (cd_bases c) with Some p => Some p | None => inheritance_tree s !! k end
  else inheritance_tree s !! k.
Proof.
  unfold visit_ClassDef; simpl.
  rewrite (proj2 (proj2 (visit_items_frame _ _ _))).
  simpl. case_decide as Hk.
  - subst. apply store_inheritance_lookup.
  - by apply store_inheritance_lookup_ne.
Qed.

(** ** Threshold checks *)

Lemma report_issues_default cbo lcom methods :
  report_issues cbo lcom methods = map flag_label (spec_evaluate default_config cbo lcom methods).
Proof.
  unfold report_issues, spec_evaluate; simpl.
  destruct (decide (3 < cbo)), (decide (5 < lcom)%Z), (decide (7 < methods)); reflexivity.
Qed.

Lemma issue_str_default cbo lcom methods :
  issue_str cbo lcom methods = spec_render_flags (spec_evaluate default_config cbo lcom methods).
Proof.
  unfold issue_str, spec_render_flags. rewrite report_issues_default.
  by destruct (spec_evaluate default_config cbo lcom methods).
Qed.

(** ** Claims *)

(** C1 (counterexample): with [class A(B)] and [class B(A)], [calculate_dit]
    on [A] never returns, whatever the number of loop iterations allowed:
    there is no cycle detection. *)
Lemma calculate_dit_cycle_no_return :
  ~ exists fuel d, calculate_dit fuel (build cyclic_module) "A" = Some d.
Proof.
  intros [fuel [d H]]. unfold calculate_dit in H.
  assert (Hall : forall m, is_Some (nth_parent (inheritance_tree (build cyclic_module)) "A" m)).
  { apply (nth_parent_revisit _ _ "A" 0 2); [lia | reflexivity | vm_compute; reflexivity]. }
  rewrite (dit_loop_diverges _ _ Hall fuel 0) in H. discriminate.
Qed.

(** C1 (amended): [calculate_dit] returns exactly when the recorded parent
    links from the class reach a name with no recorded parent, and then
    returns the number of hops; if the chain meets a name a second time, the
    loop never returns. *)
Theorem calculate_dit_returns_iff_chain_ends (s : MetricsAnalyzer) (k : string) :
  ((exists fuel d, calculate_dit fuel s k = Some d) <->
   (exists n j, nth_parent (inheritance_tree s) k n = Some j /\ inheritance_tree s !! j = None)) /\
  (forall fuel d, calculate_dit fuel s k = Some d ->
   exists j, nth_parent (inheritance_tree s) k d = Some j /\ inheritance_tree s !! j = None) /\
  ((exists j n1 n2, n1 < n2 /\ nth_parent (inheritance_tree s) k n1 = Some j /\
                    nth_parent (inheritance_tree s) k n2 = Some j) ->
   forall fuel, calculate_dit fuel s k = None).
Proof.
  unfold calculate_dit. split; [split|split].
  - intros (fuel & d & H). apply dit_loop_sound in H as [_ [j Hj]]. eauto.
  - intros (n & j & Hn & Hj). exists (S n), (0 + n).
    eapply dit_loop_complete; eauto.
  - intros fuel d H. apply dit_loop_sound in H as [_ [j Hj]].
    rewrite Nat.sub_0_r in Hj. eauto.
  - intros (j & n1 & n2 & Hlt & H1 & H2) fuel.
    apply dit_loop_diverges. eapply nth_parent_revisit; eauto.
Qed.

Lemma calculate_dit_returns_iff_chain_ends_witness :
  calculate_dit 5 (build sample_module) "Student" = Some 1 /\
  ((exists j n1 n2, n1 < n2 /\ nth_parent (inheritance_tree (build cyclic_module)) "A" n1 = Some j /\
                    nth_parent (inheritance_tree (build cyclic_module)) "A" n2 = Some j) ->
   forall fuel, calculate_dit fuel (build cyclic_module) "A" = None).
Proof.
  split; [vm_compute; reflexivity|].
  apply (calculate_dit_returns_iff_chain_ends (build cyclic_module) "A").
Defined.

(** C2 (counterexample): for [class Student] with
    [def register_course(self): pass], which has no decision point
    (cyclomatic complexity 1 by the specification's count), the report lists
    [Student.register_course] with complexity 3 and never with 1. *)
Lemma register_course_cc_reported_three :
  spec_cyclomatic plain_register_course = 1 /\
  exists lines s', generate_report_lines 10 (build plain_student_module) = Some (lines, s') /\
  "Student.register_course                      | 3   | A     | OK" ∈ lines /\
  "Student.register_course                      | 1   | A     | OK" ∉ lines.
Proof.
  split; [reflexivity|].
  eexists _, _. split; [vm_compute; reflexivity|].
  split.
  - apply list_elem_of_In. simpl. tauto.
  - rewrite list_elem_of_In. simpl. intuition discriminate.
Qed.

(** C2 (amended): no cyclomatic complexity is computed; whenever
    [generate_report] returns, its cyclomatic complexity section is the same
    fixed text, whatever the analysed classes. *)
Theorem generate_report_cc_section_fixed (fuel : nat) (s : MetricsAnalyzer)
    (lines : list string) (s' : MetricsAnalyzer) :
  generate_report_lines fuel s = Some (lines, s') ->
  take 13 lines = report_header ++ cc_section.
Proof.
  unfold generate_report_lines.
  destruct (report_rows fuel report_classes s) as [[rows s'']|]; [|discriminate].
  intros H. injection H as <- _. reflexivity.
Qed.

Lemma generate_report_cc_section_fixed_witness :
  generate_report_lines 10 (build sample_module) <> None /\
  forall lines s', generate_report_lines 10 (build sample_module) = Some (lines, s') ->
  take 13 lines = report_header ++ cc_section.
Proof.
  split; [vm_compute; discriminate|].
  intros lines s' H. exact (generate_report_cc_section_fixed 10 (build sample_module) lines s' H).
Defined.

(** C6 (counterexample): for [class Student(Person, Serializable)] the parent
    recorded in [inheritance_tree] is [Serializable], not the first base
    [Person]. *)
Lemma multi_base_records_last :
  inheritance_tree (build [multi_base_class]) !! "Student" = Some "Serializable" /\
  inheritance_tree (build [multi_base_class]) !! "Student" <> Some "Person".
Proof. split; vm_compute; [reflexivity | discriminate]. Qed.

(** C6 (amended): visiting a class declaration records as its parent the
    last base that is a plain name; other bases are ignored for DIT, and the
    visit always completes.  With no plain-name base the entry is left as it
    was. *)
Theorem visit_ClassDef_parent_is_last_name_base (c : ClassDef) (s : MetricsAnalyzer) :
  inheritance_tree (visit_ClassDef c s) !! cd_name c =
  match last_name_base (cd_bases c) with
  | Some p => Some p
  | None => inheritance_tree s !! cd_name c
  end.
Proof. rewrite visit_ClassDef_inheritance. by case_decide. Qed.

(** C7: [High coupling] is reported exactly when CBO > 3, [Low cohesion]
    exactly when LCOM > 5 and [Too many methods] exactly when the method count
    is > 7 (strict: equality gives no flag); the issue column joins the
    applicable flags with ", " in that order, or reads [OK] when none applies.
    The flags [HighCoupling], [LowCohesion], [TooManyMethods] of the
    specification are printed as [flag_label] gives them. *)
Theorem report_flags_strict_thresholds (cbo : nat) (lcom : Z) (methods : nat) :
  ("High coupling" ∈ report_issues cbo lcom methods <-> 3 < cbo) /\
  ("Low cohesion" ∈ report_issues cbo lcom methods <-> (5 < lcom)%Z) /\
  ("Too many methods" ∈ report_issues cbo lcom methods <-> 7 < methods) /\
  issue_str cbo lcom methods = spec_render_flags (spec_evaluate default_config cbo lcom methods).
Proof.
  split_and!; [..|apply issue_str_default];
    unfold report_issues;
    destruct (decide (3 < cbo)), (decide (5 < lcom)%Z), (decide (7 < methods)); simpl;
    rewrite ?elem_of_cons, ?elem_of_nil; split; intros; try tauto; try lia;
    repeat match goal with H : _ \/ _ |- _ => destruct H end;
    try discriminate; tauto.
Qed.

(** C8 (counterexample): the thresholds cannot be overridden.  Under a
    configuration raising [cboHighCoupling] to 4, a class with CBO 4 would be
    [OK], but the code still reports [High coupling]. *)
Lemma thresholds_not_configurable :
  issue_str 4 0 0 = "High coupling" /\
  spec_render_flags (spec_evaluate (mkConfig 4 5 7) 4 0 0) = "OK".
Proof. split; reflexivity. Qed.

(** C8 (amended): [generate_report] takes no configuration; the flags are
    always those of the fixed thresholds 3, 5 and 7, i.e. of the default
    configuration. *)
Theorem issue_str_uses_default_config (cbo : nat) (lcom : Z) (methods : nat) :
  issue_str cbo lcom methods = spec_render_flags (spec_evaluate default_config cbo lcom methods).
Proof. apply issue_str_default. Qed.


(** ** Effect of the builder on the [defaultdict] views *)

Lemma list_to_set_omap_cons (f : expr_node -> option string) n l :
  list_to_set (C:=gset string) (omap f (n :: l)) = oset (f n) ∪ list_to_set (omap f l).
Proof. simpl. destruct (f n); simpl; set_solver. Qed.

Lemma analyze_node_cpl c mn s n k :
  cpl_view (analyze_node c mn s n) k =
  cpl_view s k ∪ (if decide (c = k) then oset (name_ref c n) else ∅).
Proof.
  unfold cpl_view, name_ref.
  destruct n as [[v|] a|id|kind]; simpl; repeat case_decide; simpl;
    unfold dd_set_add; rewrite ?lookup_insert; repeat case_decide; simpl;
    first [tauto | set_solver].
Qed.

Lemma analyze_node_mau c mn s n k j :
  mau_view (analyze_node c mn s n) k j =
  mau_view s k j ∪ (if decide (c = k /\ mn = j) then oset (self_attr n) else ∅).
Proof.
  unfold mau_view, self_attr.
  destruct n as [[v|] a|id|kind]; simpl; repeat case_decide; simpl;
    unfold dd2_set_add, dd_set_add; rewrite ?lookup_insert; repeat case_decide; simpl;
    rewrite ?lookup_insert; repeat case_decide; simpl;
    first [tauto | set_solver | naive_solver].
Qed.

Lemma analyze_method_cpl c f s k :
  cpl_view (analyze_method c f s) k =
  cpl_view s k ∪ (if decide (c = k) then method_refs c f else ∅).
Proof.
  unfold analyze_method, method_refs. generalize (fd_walk f) as l. intros l. revert s.
  induction l as [|n l IH]; intros s; simpl fold_left.
  - case_decide; set_solver.
  - rewrite IH, analyze_node_cpl, list_to_set_omap_cons. case_decide; set_solver.
Qed.

Lemma analyze_method_mau c f s k j :
  mau_view (analyze_method c f s) k j =
  mau_view s k j ∪ (if decide (c = k /\ fd_name f = j) then self_attrs f else ∅).
Proof.
  unfold analyze_method, self_attrs. generalize (fd_walk f) as l. intros l. revert s.
  induction l as [|n l IH]; intros s; simpl fold_left.
  - case_decide; set_solver.
  - rewrite IH, analyze_node_mau, list_to_set_omap_cons. case_decide; set_solver.
Qed.

Lemma visit_items_mpc name body s k :
  mpc_view (fold_left (visit_item name) body s) k =
  mpc_view s k ++ (if decide (name = k) then map fd_name (declared_methods body) else []).
Proof.
  revert s; induction body as [|[f|] body IH]; intros s; simpl.
  - case_decide; by rewrite app_nil_r.
  - rewrite IH. unfold mpc_view.
    rewrite (proj2 (proj2 (proj2 (analyze_method_frame _ _ _)))). simpl.
    unfold dd_list_append. rewrite lookup_insert.
    destruct (decide (name = k)) as [->|]; simpl; [by rewrite <- app_assoc | done].
  - apply IH.
Qed.

Lemma visit_items_cpl name body s k :
  cpl_view (fold_left (visit_item name) body s) k =
  cpl_view s k ∪ (if decide (name = k) then ⋃ (map (method_refs name) (declared_methods body)) else ∅).
Proof.
  revert s; induction body as [|[f|] body IH]; intros s; simpl.
  - case_decide; set_solver.
  - rewrite IH, analyze_method_cpl. unfold cpl_view. simpl. case_decide; set_solver.
  - apply IH.
Qed.

Lemma visit_items_mau name body s k j :
  mau_view (fold_left (visit_item name) body s) k j =
  mau_view s k j ∪
  (if decide (name = k)
   then ⋃ (map self_attrs (filter (fun f => fd_name f = j) (declared_methods body))) else ∅).
Proof.
  revert s; induction body as [|[f|] body IH]; intros s; simpl.
  - case_decide; set_solver.
  - rewrite IH, analyze_method_mau. unfold mau_view. simpl.
    rewrite filter_cons. repeat case_decide; simpl; first [tauto | set_solver].
  - apply IH.
Qed.

Lemma visit_ClassDef_mpc c s k :
  mpc_view (visit_ClassDef c s) k =
  mpc_view s k ++ (if decide (cd_name c = k) then map fd_name (declared_methods (cd_body c)) else []).
Proof.
  unfold visit_ClassDef; cbv zeta.
  match goal with
  | |- context [fold_left (visit_item ?n) ?b ?s2] =>
      transitivity (mpc_view (fold_left (visit_item n) b s2) k); [reflexivity|];
      rewrite visit_items_mpc; reflexivity
  end.
Qed.

Lemma visit_ClassDef_cpl c s k :
  cpl_view (visit_ClassDef c s) k =
  cpl_view s k ∪ (if decide (cd_name c = k)
                  then ⋃ (map (method_refs (cd_name c)) (declared_methods (cd_body c))) else ∅).
Proof.
  unfold visit_ClassDef; cbv zeta.
  match goal with
  | |- context [fold_left (visit_item ?n) ?b ?s2] =>
      transitivity (cpl_view (fold_left (visit_item n) b s2) k); [reflexivity|];
      rewrite visit_items_cpl; reflexivity
  end.
Qed.

Lemma visit_ClassDef_mau c s k j :
  mau_view (visit_ClassDef c s) k j =
  mau_view s k j ∪
  (if decide (cd_name c = k)
   then ⋃ (map self_attrs (filter (fun f => fd_name f = j) (declared_methods (cd_body c)))) else ∅).
Proof.
  unfold visit_ClassDef; cbv zeta.
  match goal with
  | |- context [fold_left (visit_item ?n) ?b ?s2] =>
      transitivity (mau_view (fold_left (visit_item n) b s2) k j); [reflexivity|];
      rewrite visit_items_mau; reflexivity
  end.
Qed.

Lemma visit_ClassDef_classes c s :
  classes (visit_ClassDef c s) =
  <[cd_name c := mkClassInfo (function_names (cd_body c)) ∅
                   (map base_class_label (cd_bases c)) (length (cd_body c))]> (classes s).
Proof. unfold visit_ClassDef. simpl. by rewrite (proj1 (visit_items_frame _ _ _)). Qed.

(** The builder run over a whole module. *)
Lemma build_views (m : module) :
  forall s k j,
  mpc_view (fold_left (fun s c => visit_ClassDef c s) m s) k =
    mpc_view s k ++ map fd_name (methods_of m k) /\
  cpl_view (fold_left (fun s c => visit_ClassDef c s) m s) k = cpl_view s k ∪ known_refs m k /\
  mau_view (fold_left (fun s c => visit_ClassDef c s) m s) k j =
    mau_view s k j ∪ merged_attrs m k j.
Proof.
  unfold known_refs, merged_attrs, methods_of, defs_named.
  induction m as [|c m IH]; intros s k j; simpl.
  - rewrite app_nil_r. split_and!; [done | set_solver | set_solver].
  - destruct (IH (visit_ClassDef c s) k j) as (-> & -> & ->).
    rewrite visit_ClassDef_mpc, visit_ClassDef_cpl, visit_ClassDef_mau.
    rewrite (filter_cons (fun c0 : ClassDef => cd_name c0 = k)).
    destruct (decide (cd_name c = k)) as [Hck|Hck]; simpl.
    + subst k. rewrite !map_app, filter_app, map_app, !union_list_app_L, <- app_assoc.
      split_and!; [done | set_solver | set_solver].
    + rewrite app_nil_r. split_and!; [done | set_solver | set_solver].
Qed.

(** ** The pair scan of [calculate_lcom] *)

Lemma lcom_inner_counts (A : gmap string (gset string)) x r p q :
  lcom_inner A x r (p, q) =
  (p + length (filter (fun ab : gset string * gset string => ab.1 ∩ ab.2 = ∅)
                 (map (pair (attrs_get A x)) (map (attrs_get A) r))),
   q + length (filter (fun ab : gset string * gset string => ab.1 ∩ ab.2 ≠ ∅)
                 (map (pair (attrs_get A x)) (map (attrs_get A) r)))).
Proof.
  revert p q; induction r as [|y r IH]; intros p q; simpl; [f_equal; lia|].
  destruct (decide (attrs_get A x ∩ attrs_get A y = ∅)) as [H|H]; rewrite IH.
  - rewrite (filter_cons_True (fun ab : gset string * gset string => ab.1 ∩ ab.2 = ∅)) by exact H.
    rewrite (filter_cons_False (fun ab : gset string * gset string => ab.1 ∩ ab.2 ≠ ∅))
      by (simpl; tauto).
    simpl. f_equal; lia.
  - rewrite (filter_cons_False (fun ab : gset string * gset string => ab.1 ∩ ab.2 = ∅)) by exact H.
    rewrite (filter_cons_True (fun ab : gset string * gset string => ab.1 ∩ ab.2 ≠ ∅)) by exact H.
    simpl. f_equal; lia.
Qed.

Lemma lcom_outer_counts (A : gmap string (gset string)) ms p q :
  lcom_outer A ms (p, q) =
  (p + spec_P (map (attrs_get A) ms), q + spec_Q (map (attrs_get A) ms)).
Proof.
  unfold spec_P, spec_Q.
  revert p q; induction ms as [|x r IH]; intros p q; simpl; [f_equal; lia|].
  rewrite lcom_inner_counts, IH, !filter_app, !length_app. f_equal; lia.
Qed.

Lemma spec_lcom_short (sets : list (gset string)) :
  length sets <= 1 -> spec_lcom sets = 0%Z.
Proof. destruct sets as [|x [|y r]]; simpl; [done|done|lia]. Qed.

(** [calculate_lcom] in terms of the [defaultdict] views it reads. *)
Lemma calculate_lcom_views s k :
  lcom_num (fst (calculate_lcom k s)) = spec_lcom (map (mau_view s k) (mpc_view s k)).
Proof.
  unfold calculate_lcom, mpc_view, mau_view, dd_read.
  destruct (methods_per_class s !! k) as [ms|]; simpl.
  - case_decide as Hlen.
    + simpl. symmetry. apply spec_lcom_short. by rewrite length_map.
    + destruct (method_attribute_usage s !! k) as [A|]; simpl;
        rewrite lcom_outer_counts; reflexivity.
  - reflexivity.
Qed.

Lemma calculate_cbo_views s k : fst (calculate_cbo k s) = size (cpl_view s k).
Proof. unfold calculate_cbo, cpl_view, dd_read. by destruct (coupling s !! k). Qed.

(** C3 (counterexample): [Account] declares a getter and a setter both named
    [balance] (attributes [_balance] and [_history]) and [log] (attribute
    [_history]).  Over the three declared methods P = 2 and Q = 1, so the
    specification gives LCOM 1; the code gives 0, because the attribute usage
    of both [balance] methods is stored under one key. *)
Lemma lcom_same_name_methods_merged :
  lcom_num (fst (calculate_lcom "Account" (build account_module))) = 0%Z /\
  spec_lcom (map self_attrs (methods_of account_module "Account")) = 1%Z.
Proof. split; vm_compute; reflexivity. Qed.

(** C3 (amended): [calculate_lcom] returns max(P - Q, 0) over the pairs of
    positions of the class's declared-method list, the attribute set of each
    method being the union of the [self] attributes of all the class's methods
    with its name; with zero or one declared method the result is 0. *)
Theorem calculate_lcom_pairs_by_name (m : module) (k : string) :
  lcom_num (fst (calculate_lcom k (build m))) =
    spec_lcom (map (fun f => merged_attrs m k (fd_name f)) (methods_of m k)) /\
  (length (methods_of m k) <= 1 -> lcom_num (fst (calculate_lcom k (build m))) = 0%Z).
Proof.
  assert (Heq : lcom_num (fst (calculate_lcom k (build m))) =
                spec_lcom (map (fun f => merged_attrs m k (fd_name f)) (methods_of m k))).
  { rewrite calculate_lcom_views. unfold build.
    destruct (build_views m init k "") as (-> & _ & _).
    replace (mpc_view init k) with (@nil string) by reflexivity.
    simpl. rewrite map_map. f_equal. apply map_ext. intros f.
    destruct (build_views m init k (fd_name f)) as (_ & _ & ->).
    replace (mau_view init k (fd_name f)) with (∅ : gset string) by reflexivity.
    apply union_empty_l_L. }
  split; [exact Heq|]. intros Hlen. rewrite Heq. apply spec_lcom_short. by rewrite length_map.
Qed.

Lemma calculate_lcom_pairs_by_name_witness :
  lcom_num (fst (calculate_lcom "Student" (build sample_module))) = 1%Z /\
  (length (methods_of sample_module "Person") <= 1 ->
   lcom_num (fst (calculate_lcom "Person" (build sample_module))) = 0%Z).
Proof.
  split; [vm_compute; reflexivity|].
  apply (calculate_lcom_pairs_by_name sample_module "Person").
Defined.

(** C4 (counterexample): [Bar] builds a [Foo()], and [Foo] is declared in
    the module, but CBO of [Bar] is 0: only the five hard-coded names are
    recognised. *)
Lemma cbo_ignores_registered_class :
  fst (calculate_cbo "Bar" (build foo_bar_module)) = 0 /\
  size (spec_registry_refs foo_bar_module "Bar") = 1.
Proof. split; vm_compute; reflexivity. Qed.

(** C4 (amended): [calculate_cbo] returns the number of distinct names of the
    fixed list [Student], [Course], [Lecturer], [Registrar], [Person], other
    than the class's own name, occurring as identifiers in the class's
    methods (declared in the module or not); repetitions count once. *)
Theorem calculate_cbo_distinct_known_names (m : module) (k : string) :
  fst (calculate_cbo k (build m)) = size (known_refs m k).
Proof.
  rewrite calculate_cbo_views. unfold build.
  destruct (build_views m init k "") as (_ & -> & _).
  replace (cpl_view init k) with (∅ : gset string) by reflexivity.
  by rewrite union_empty_l_L.
Qed.

(** ** [defaultdict] reads and the reachable states *)

Lemma dd_read_extends {V} (m : gmap string V) k d : dd_extends m (snd (dd_read m k d)) d.
Proof.
  unfold dd_extends, dd_read. intros j. destruct (m !! k) as [v|] eqn:E; simpl; [by left|].
  rewrite lookup_insert. destruct (decide (k = j)) as [<-|]; [by right | by left].
Qed.

Lemma dd_extends_view {V} (m m' : gmap string V) d j :
  dd_extends m m' d -> default d (m' !! j) = default d (m !! j).
Proof. intros H. destruct (H j) as [->|[-> ->]]; done. Qed.

Lemma calculate_cbo_state s k :
  snd (calculate_cbo k s) = set_coupling (snd (dd_read (coupling s) k ∅)) s.
Proof. unfold calculate_cbo. by destruct (dd_read (coupling s) k ∅). Qed.

Lemma calculate_lcom_state s k :
  let s1 := set_methods_per_class (snd (dd_read (methods_per_class s) k [])) s in
  snd (calculate_lcom k s) =
  if decide (length (fst (dd_read (methods_per_class s) k [])) <= 1) then s1
  else set_method_attribute_usage (snd (dd_read (method_attribute_usage s1) k ∅)) s1.
Proof.
  unfold calculate_lcom. destruct (dd_read (methods_per_class s) k []) as [ms mpc]. simpl.
  case_decide; [done|].
  destruct (dd_read (method_attribute_usage s) k ∅) as [A mau]. simpl.
  by destruct (lcom_outer A ms (0, 0)).
Qed.

Lemma calculate_cbo_frame s k : metric_frame s (snd (calculate_cbo k s)).
Proof.
  rewrite calculate_cbo_state. unfold metric_frame; simpl.
  split_and!; try done; try apply dd_read_extends; intros j; by left.
Qed.

Lemma calculate_lcom_frame s k : metric_frame s (snd (calculate_lcom k s)).
Proof.
  rewrite calculate_lcom_state. unfold metric_frame.
  case_decide; simpl; split_and!; try done; try apply dd_read_extends; intros j; by left.
Qed.

Lemma metric_frame_closed s s' : metric_frame s s' -> registry_closed s -> registry_closed s'.
Proof.
  intros (Hc & _ & Hi & _ & Hcp & Hm & _) Hs k Hk. rewrite Hc in Hk.
  destruct (Hs k Hk) as (Hik & Hck & Hmk). unfold cpl_view, mpc_view in *.
  rewrite Hi, (dd_extends_view _ _ _ _ Hcp), (dd_extends_view _ _ _ _ Hm). done.
Qed.

Lemma init_closed : registry_closed init.
Proof. intros k _. done. Qed.

Lemma visit_ClassDef_closed c s : registry_closed s -> registry_closed (visit_ClassDef c s).
Proof.
  intros Hs k Hk. rewrite visit_ClassDef_classes in Hk.
  destruct (decide (cd_name c = k)) as [<-|Hne]; [by rewrite lookup_insert_eq in Hk|].
  rewrite lookup_insert_ne in Hk by done. destruct (Hs k Hk) as (Hi & Hc & Hm).
  rewrite visit_ClassDef_inheritance, visit_ClassDef_cpl, visit_ClassDef_mpc.
  destruct (decide (k = cd_name c)); [congruence|].
  destruct (decide (cd_name c = k)); [congruence|].
  rewrite Hi, Hc, Hm. split_and!; [done | set_solver | done].
Qed.

Lemma report_row_closed fuel k s row s' :
  registry_closed s -> report_row fuel k s = Some (row, s') -> registry_closed s'.
Proof.
  intros Hs. unfold report_row.
  destruct (calculate_dit fuel s k); [|discriminate].
  destruct (calculate_cbo k s) as [cbo s1] eqn:E1.
  destruct (calculate_lcom k s1) as [l s2] eqn:E2.
  destruct (dd_read (methods_per_class s2) k []) as [ms mpc] eqn:E3.
  destruct (dd_read (attributes_per_class (set_methods_per_class mpc s2)) k ∅) as [attrs apc].
  intros H. injection H as _ <-.
  assert (Hs1 : registry_closed s1).
  { apply (metric_frame_closed s); [|done].
    replace s1 with (snd (calculate_cbo k s)) by (by rewrite E1). apply calculate_cbo_frame. }
  assert (Hs2 : registry_closed s2).
  { apply (metric_frame_closed s1); [|done].
    replace s2 with (snd (calculate_lcom k s1)) by (by rewrite E2). apply calculate_lcom_frame. }
  intros j Hj. destruct (Hs2 j Hj) as (Hi & Hc & Hm). split_and!; [done|done|].
  unfold mpc_view in *; simpl.
  replace mpc with (snd (dd_read (methods_per_class s2) k [])) by (by rewrite E3).
  by rewrite (dd_extends_view _ _ _ _ (dd_read_extends _ _ _)).
Qed.

Lemma report_rows_closed fuel names :
  forall s rows s', registry_closed s -> report_rows fuel names s = Some (rows, s') ->
  registry_closed s'.
Proof.
  induction names as [|k names IH]; intros s rows s' Hs; simpl.
  - intros H. by injection H as _ <-.
  - case_decide; [|by apply IH].
    destruct (report_row fuel k s) as [[row s1]|] eqn:E; [|discriminate].
    destruct (report_rows fuel names s1) as [[rows' s2]|] eqn:E'; [|discriminate].
    intros Hr. injection Hr as _ <-. eapply IH; [|exact E'].
    eapply report_row_closed; eauto.
Qed.

Lemma reachable_closed s : reachable s -> registry_closed s.
Proof.
  induction 1 as [| c s _ IH | k s _ IH | k s _ IH | fuel s lines s' _ IH Hrep].
  - apply init_closed.
  - by apply visit_ClassDef_closed.
  - eapply metric_frame_closed; [apply calculate_cbo_frame | done].
  - eapply metric_frame_closed; [apply calculate_lcom_frame | done].
  - unfold generate_report_lines in Hrep.
    destruct (report_rows fuel report_classes s) as [[rows s'']|] eqn:E; [|discriminate].
    injection Hrep as _ <-. eapply report_rows_closed; eauto.
Qed.

Lemma reachable_build (m : module) :
  forall s, reachable s -> reachable (fold_left (fun s c => visit_ClassDef c s) m s).
Proof.
  induction m as [|c m IH]; intros s Hs; simpl; [done|]. apply IH. by constructor.
Qed.

(** C5 (counterexample): for [class Student(Person)] where [Person] is not
    declared, [calculate_dit] on [Student] returns 1, never 0. *)
Lemma unknown_base_dit_is_one :
  classes (build unknown_base_module) !! "Person" = None /\
  calculate_dit 3 (build unknown_base_module) "Student" = Some 1 /\
  ~ exists fuel, calculate_dit fuel (build unknown_base_module) "Student" = Some 0.
Proof.
  split_and!; [vm_compute; reflexivity | vm_compute; reflexivity |].
  intros [fuel H]. apply dit_loop_sound in H as [_ [j [Hj Hn]]].
  simpl in Hj. injection Hj as <-. vm_compute in Hn. discriminate.
Qed.

(** C5 (amended): [calculate_dit] counts the hops along recorded parent links
    until it reaches a name with no recorded parent, and returns that number
    n (0 for a class with no recorded parent).  A parent name that is not
    registered has no recorded parent, so it ends the chain but its hop is
    counted: a class whose recorded parent is unregistered has DIT 1. *)
Theorem calculate_dit_counts_hops (s : MetricsAnalyzer) (k : string) :
  reachable s ->
  (forall n j fuel, nth_parent (inheritance_tree s) k n = Some j ->
     inheritance_tree s !! j = None -> n < fuel -> calculate_dit fuel s k = Some n) /\
  (forall p fuel, inheritance_tree s !! k = Some p -> classes s !! p = None ->
     calculate_dit (S (S fuel)) s k = Some 1).
Proof.
  intros Hr. pose proof (reachable_closed s Hr) as Hs. unfold calculate_dit. split.
  - intros n j fuel Hn Hj Hf. exact (dit_loop_complete _ n k j 0 fuel Hn Hj Hf).
  - intros p fuel Hp Hc. destruct (Hs p Hc) as (Hi & _ & _).
    apply (dit_loop_complete _ 1 k p 0); [simpl; by rewrite Hp | done | lia].
Qed.

Lemma calculate_dit_counts_hops_witness :
  calculate_dit 3 (build unknown_base_module) "Student" = Some 1.
Proof.
  apply (proj2 (calculate_dit_counts_hops (build unknown_base_module) "Student"
                  (reachable_build _ _ reach_init)) "Person" 1);
    vm_compute; reflexivity.
Defined.

(** C9 (counterexample): computing CBO of [Person] for [class Person: pass]
    adds the key [Person] to [coupling] (a [defaultdict] read). *)
Lemma cbo_inserts_coupling_key :
  coupling (build person_module) !! "Person" = None /\
  coupling (snd (calculate_cbo "Person" (build person_module))) !! "Person" = Some ∅.
Proof. split; vm_compute; reflexivity. Qed.

(** C9 (amended): [calculate_dit] returns no state; [calculate_cbo] and
    [calculate_lcom] leave [classes], [current_class], [inheritance_tree] and
    [attributes_per_class] unchanged, and change [coupling],
    [methods_per_class] and [method_attribute_usage] only by adding an empty
    default entry for a missing key.  Such a change leaves every later
    metric result unchanged. *)
Theorem metric_functions_only_add_defaults (s : MetricsAnalyzer) (k : string) :
  metric_frame s (snd (calculate_cbo k s)) /\
  metric_frame s (snd (calculate_lcom k s)) /\
  (forall s', metric_frame s s' -> forall fuel k',
     calculate_dit fuel s' k' = calculate_dit fuel s k' /\
     fst (calculate_cbo k' s') = fst (calculate_cbo k' s) /\
     lcom_num (fst (calculate_lcom k' s')) = lcom_num (fst (calculate_lcom k' s))).
Proof.
  split_and!; [apply calculate_cbo_frame | apply calculate_lcom_frame |].
  intros s' (_ & _ & Hi & _ & Hcp & Hm & Hmau) fuel k'. split_and!.
  - unfold calculate_dit. by rewrite Hi.
  - rewrite !calculate_cbo_views. unfold cpl_view. by rewrite (dd_extends_view _ _ _ _ Hcp).
  - rewrite !calculate_lcom_views. unfold mpc_view, mau_view.
    rewrite (dd_extends_view _ _ _ _ Hm), (dd_extends_view _ _ _ _ Hmau). done.
Qed.

Lemma metric_functions_only_add_defaults_witness :
  fst (calculate_cbo "Student" (snd (calculate_cbo "Registrar" (build sample_module)))) =
  fst (calculate_cbo "Student" (build sample_module)).
Proof.
  destruct (metric_functions_only_add_defaults (build sample_module) "Registrar")
    as (Hf & _ & Hstable).
  exact (proj1 (proj2 (Hstable _ Hf 0 "Student"))).
Defined.

(** C10: for a name no visited class declaration registered, in any state the
    program reaches, [calculate_dit] returns 0 at its first loop test,
    [calculate_cbo] returns 0 and [calculate_lcom] returns 0 (as [0.0]); none
    of them fails. *)
Theorem unregistered_class_metrics_zero (s : MetricsAnalyzer) (k : string) :
  reachable s -> classes s !! k = None ->
  (forall fuel, calculate_dit (S fuel) s k = Some 0) /\
  fst (calculate_cbo k s) = 0 /\
  lcom_num (fst (calculate_lcom k s)) = 0%Z.
Proof.
  intros Hr Hk. destruct (reachable_closed s Hr k Hk) as (Hi & Hc & Hm). split_and!.
  - intros fuel. unfold calculate_dit. simpl. by rewrite Hi.
  - by rewrite calculate_cbo_views, Hc, size_empty.
  - by rewrite calculate_lcom_views, Hm.
Qed.

Lemma unregistered_class_metrics_zero_witness :
  fst (calculate_cbo "Registrar" (build sample_module)) = 0.
Proof.
  exact (proj1 (proj2 (unregistered_class_metrics_zero (build sample_module) "Registrar"
           (reachable_build _ _ reach_init) ltac:(vm_compute; reflexivity)))).
Defined.

(** * Further properties of the analyzer *)

(** ** Report generation *)

Lemma dd_extends_refl {V} (m : gmap string V) d : dd_extends m m d.
Proof. intros j; by left. Qed.

Lemma dd_extends_trans {V} (m1 m2 m3 : gmap string V) d :
  dd_extends m1 m2 d -> dd_extends m2 m3 d -> dd_extends m1 m3 d.
Proof.
  intros H12 H23 j.
  destruct (H12 j) as [E|[E1 E2]], (H23 j) as [F|[F1 F2]].
  - left; congruence.
  - right; split; congruence.
  - right; split; congruence.
  - congruence.
Qed.

Lemma view_frame_refl s : view_frame s s.
Proof. split_and!; try done; apply dd_extends_refl. Qed.

Lemma view_frame_trans s1 s2 s3 : view_frame s1 s2 -> view_frame s2 s3 -> view_frame s1 s3.
Proof.
  intros (? & ? & ? & ? & ? & ?) (? & ? & ? & ? & ? & ?).
  split_and!; try congruence; eapply dd_extends_trans; eauto.
Qed.

Lemma metric_view_frame s s' : metric_frame s s' -> view_frame s s'.
Proof.
  intros (? & _ & ? & Ha & ? & ? & ?). split_and!; try done.
  rewrite Ha. apply dd_extends_refl.
Qed.

Lemma dd_read_fst {V} (m : gmap string V) k d : fst (dd_read m k d) = default d (m !! k).
Proof. unfold dd_read. by destruct (m !! k). Qed.

Lemma calculate_lcom_fst s k :
  fst (calculate_lcom k s) =
  if decide (length (mpc_view s k) <= 1) then LcomFloatZero
  else let pq := lcom_outer (default ∅ (method_attribute_usage s !! k)) (mpc_view s k) (0, 0) in
       LcomInt (Z.max (Z.of_nat pq.1 - Z.of_nat pq.2) 0).
Proof.
  unfold calculate_lcom, mpc_view, dd_read.
  destruct (methods_per_class s !! k) as [ms|]; simpl.
  - destruct (decide (length ms <= 1)); [done|]. simpl.
    destruct (method_attribute_usage s !! k); simpl; by destruct (lcom_outer _ _ _).
  - done.
Qed.

Lemma view_frame_metrics s s' fuel k :
  view_frame s s' ->
  calculate_dit fuel s' k = calculate_dit fuel s k /\
  fst (calculate_cbo k s') = fst (calculate_cbo k s) /\
  fst (calculate_lcom k s') = fst (calculate_lcom k s) /\
  mpc_view s' k = mpc_view s k /\ apc_view s' k = apc_view s k.
Proof.
  intros (Hc & Hi & Hcp & Hm & Ha & Hmau). split_and!.
  - unfold calculate_dit. by rewrite Hi.
  - rewrite !calculate_cbo_views. unfold cpl_view. by rewrite (dd_extends_view _ _ _ _ Hcp).
  - rewrite !calculate_lcom_fst. unfold mpc_view.
    by rewrite (dd_extends_view _ _ _ _ Hm), (dd_extends_view _ _ _ _ Hmau).
  - unfold mpc_view. by rewrite (dd_extends_view _ _ _ _ Hm).
  - unfold apc_view. by rewrite (dd_extends_view _ _ _ _ Ha).
Qed.

Lemma rows_of_frame s s' fuel names :
  view_frame s s' -> rows_of fuel s' names = rows_of fuel s names.
Proof.
  intros Hf. pose proof Hf as (Hc & _).
  induction names as [|n names IH]; simpl; [done|]. rewrite Hc, IH.
  by destruct (view_frame_metrics s s' fuel n Hf) as (-> & -> & -> & -> & ->).
Qed.

Lemma report_row_spec fuel k s :
  match report_row fuel k s with
  | None => calculate_dit fuel s k = None
  | Some (row, s') =>
      view_frame s s' /\
      exists d, calculate_dit fuel s k = Some d /\
        row = row_text k d (fst (calculate_cbo k s)) (fst (calculate_lcom k s))
                (length (mpc_view s k)) (size (apc_view s k))
  end.
Proof.
  unfold report_row. destruct (calculate_dit fuel s k) as [d|] eqn:Ed; [|done].
  destruct (calculate_cbo k s) as [cbo s1] eqn:E1.
  destruct (calculate_lcom k s1) as [l s2] eqn:E2.
  destruct (dd_read (methods_per_class s2) k []) as [ms mpc] eqn:E3.
  destruct (dd_read (attributes_per_class (set_methods_per_class mpc s2)) k ∅)
    as [attrs apc] eqn:E4.
  assert (F1 : view_frame s s1).
  { replace s1 with (snd (calculate_cbo k s)) by (by rewrite E1).
    apply metric_view_frame, calculate_cbo_frame. }
  assert (F2 : view_frame s1 s2).
  { replace s2 with (snd (calculate_lcom k s1)) by (by rewrite E2).
    apply metric_view_frame, calculate_lcom_frame. }
  pose proof (view_frame_trans _ _ _ F1 F2) as F12.
  split.
  - eapply view_frame_trans; [exact F12|].
    unfold view_frame; simpl; split_and!; try done; try apply dd_extends_refl.
    + replace mpc with (snd (dd_read (methods_per_class s2) k [])) by (by rewrite E3).
      apply dd_read_extends.
    + replace apc with (snd (dd_read (attributes_per_class (set_methods_per_class mpc s2)) k ∅))
        by (by rewrite E4).
      apply dd_read_extends.
  - exists d. split; [done|].
    assert (Hcbo : cbo = fst (calculate_cbo k s)) by (by rewrite E1).
    assert (Hl : l = fst (calculate_lcom k s)).
    { rewrite <- (proj1 (proj2 (proj2 (view_frame_metrics s s1 fuel k F1)))), E2. done. }
    assert (Hms : ms = mpc_view s k).
    { rewrite <- (proj1 (proj2 (proj2 (proj2 (view_frame_metrics s s2 fuel k F12))))).
      unfold mpc_view. rewrite <- dd_read_fst, E3. done. }
    assert (Ha : attrs = apc_view s k).
    { rewrite <- (proj2 (proj2 (proj2 (proj2 (view_frame_metrics s s2 fuel k F12))))).
      change (apc_view s2 k) with (apc_view (set_methods_per_class mpc s2) k).
      unfold apc_view. rewrite <- dd_read_fst, E4. done. }
    subst cbo l ms attrs. reflexivity.
Qed.

Lemma report_rows_spec fuel names :
  forall s,
  match report_rows fuel names s with
  | None => rows_of fuel s names = None
  | Some (rows, s') => view_frame s s' /\ rows_of fuel s names = Some rows
  end.
Proof.
  induction names as [|n names IH]; intros s; simpl.
  - split; [apply view_frame_refl | done].
  - case_decide as Hreg; [|apply IH].
    pose proof (report_row_spec fuel n s) as Hrow.
    destruct (report_row fuel n s) as [[row s1]|] eqn:E.
    + destruct Hrow as [F1 (d & Hd & ->)]. rewrite Hd.
      pose proof (IH s1) as Hrest. rewrite (rows_of_frame s s1) in Hrest by done.
      destruct (report_rows fuel names s1) as [[rows s2]|].
      * destruct Hrest as [F2 ->]. split; [eapply view_frame_trans; eauto | done].
      * by rewrite Hrest.
    + by rewrite Hrow.
Qed.

Lemma rows_of_None fuel s names :
  rows_of fuel s names = None <->
  exists n, n ∈ names /\ is_Some (classes s !! n) /\ calculate_dit fuel s n = None.
Proof.
  induction names as [|n names IH]; simpl.
  - split; [done|]. intros (x & Hx & _). by apply elem_of_nil in Hx.
  - case_decide as Hreg.
    + split.
      * intros H. destruct (calculate_dit fuel s n) eqn:Ed;
          [|exists n; rewrite elem_of_cons; auto].
        destruct (rows_of fuel s names) eqn:Er; [discriminate|].
        destruct (proj1 IH eq_refl) as (x & Hx & Hr & Hd).
        exists x. rewrite elem_of_cons. auto.
      * intros (x & Hx & Hr & Hd). rewrite elem_of_cons in Hx.
        destruct Hx as [->|Hx]; [by rewrite Hd|].
        destruct (calculate_dit fuel s n); [|done]. rewrite (proj2 IH); [done|eauto].
    + rewrite IH. split; intros (x & Hx & Hr & Hd); exists x.
      * rewrite elem_of_cons. auto.
      * rewrite elem_of_cons in Hx. destruct Hx as [->|]; [contradiction | auto].
Qed.

Lemma dit_loop_mono fuel fuel' (t : gmap string string) k d r :
  dit_loop fuel t k d = Some r -> fuel <= fuel' -> dit_loop fuel' t k d = Some r.
Proof.
  revert fuel' k d; induction fuel as [|f IH]; intros fuel' k d H Hle; [discriminate|].
  destruct fuel' as [|f']; [lia|]. simpl in *.
  destruct (t !! k); [apply IH; [done|lia] | done].
Qed.

Lemma uniform_fuel s (names : list string) :
  (forall n, n ∈ names -> is_Some (classes s !! n) -> exists fuel d, calculate_dit fuel s n = Some d) ->
  exists fuel, forall n, n ∈ names -> is_Some (classes s !! n) -> is_Some (calculate_dit fuel s n).
Proof.
  induction names as [|n names IH]; intros Hall.
  - exists 0. intros x Hx. by apply elem_of_nil in Hx.
  - destruct IH as [f1 H1].
    { intros x Hx. apply Hall. rewrite elem_of_cons. auto. }
    destruct (decide (is_Some (classes s !! n))) as [Hreg|Hreg].
    + destruct (Hall n ltac:(rewrite elem_of_cons; auto) Hreg) as (f0 & d0 & Hd0).
      exists (f0 + f1). intros x Hx Hr. rewrite elem_of_cons in Hx. unfold calculate_dit in *.
      destruct Hx as [->|Hx].
      * exists d0. eapply dit_loop_mono; [exact Hd0 | lia].
      * destruct (H1 x Hx Hr) as [d Hd]. exists d. eapply dit_loop_mono; [exact Hd | lia].
    + exists f1. intros x Hx Hr. rewrite elem_of_cons in Hx.
      destruct Hx as [->|Hx]; [contradiction | auto].
Qed.

Lemma generate_report_lines_frame fuel s lines s' :
  generate_report_lines fuel s = Some (lines, s') -> view_frame s s'.
Proof.
  unfold generate_report_lines. intros H.
  pose proof (report_rows_spec fuel report_classes s) as Hs.
  destruct (report_rows fuel report_classes s) as [[rows s1]|]; [|discriminate].
  injection H as _ <-. apply Hs.
Qed.

(** ** [attributes_per_class] *)

Lemma analyze_node_apc c mn s n k :
  apc_view (analyze_node c mn s n) k =
  apc_view s k ∪ (if decide (c = k) then oset (self_attr n) else ∅).
Proof.
  unfold apc_view, self_attr.
  destruct n as [[v|] a|id|kind]; simpl; repeat case_decide; simpl;
    unfold dd_set_add; rewrite ?lookup_insert; repeat case_decide; simpl;
    first [tauto | set_solver].
Qed.

Lemma analyze_method_apc c f s k :
  apc_view (analyze_method c f s) k =
  apc_view s k ∪ (if decide (c = k) then self_attrs f else ∅).
Proof.
  unfold analyze_method, self_attrs. generalize (fd_walk f) as l. intros l. revert s.
  induction l as [|n l IH]; intros s; simpl fold_left.
  - case_decide; set_solver.
  - rewrite IH, analyze_node_apc, list_to_set_omap_cons. case_decide; set_solver.
Qed.

Lemma visit_items_apc name body s k :
  apc_view (fold_left (visit_item name) body s) k =
  apc_view s k ∪ (if decide (name = k) then ⋃ (map self_attrs (declared_methods body)) else ∅).
Proof.
  revert s; induction body as [|[f|] body IH]; intros s; simpl.
  - case_decide; set_solver.
  - rewrite IH, analyze_method_apc. unfold apc_view. simpl. case_decide; set_solver.
  - apply IH.
Qed.

Lemma visit_ClassDef_apc c s k :
  apc_view (visit_ClassDef c s) k =
  apc_view s k ∪ (if decide (cd_name c = k)
                  then ⋃ (map self_attrs (declared_methods (cd_body c))) else ∅).
Proof.
  unfold visit_ClassDef; cbv zeta.
  match goal with
  | |- context [fold_left (visit_item ?n) ?b ?s2] =>
      transitivity (apc_view (fold_left (visit_item n) b s2) k); [reflexivity|];
      rewrite visit_items_apc; reflexivity
  end.
Qed.

Lemma build_apc (m : module) :
  forall s k,
  apc_view (fold_left (fun s c => visit_ClassDef c s) m s) k =
    apc_view s k ∪ ⋃ (map self_attrs (methods_of m k)).
Proof.
  unfold methods_of, defs_named.
  induction m as [|c m IH]; intros s k; simpl.
  - set_solver.
  - rewrite IH, visit_ClassDef_apc, (filter_cons (fun c0 : ClassDef => cd_name c0 = k)).
    destruct (decide (cd_name c = k)) as [Hck|Hck]; simpl.
    + rewrite map_app, union_list_app_L. set_solver.
    + set_solver.
Qed.

(** ** [classes] *)

Lemma build_classes (m : module) :
  forall s k,
  classes (fold_left (fun s c => visit_ClassDef c s) m s) !! k =
    match last (defs_named m k) with
    | Some c => Some (class_info_of c)
    | None => classes s !! k
    end.
Proof.
  unfold defs_named.
  induction m as [|c m IH]; intros s k; simpl; [done|].
  rewrite IH, (filter_cons (fun c0 : ClassDef => cd_name c0 = k)).
  rewrite visit_ClassDef_classes.
  destruct (decide (cd_name c = k)) as [Hck|Hck].
  - rewrite last_cons. destruct (last _); [done|]. subst k. by rewrite lookup_insert_eq.
  - destruct (last _); [done|]. by rewrite lookup_insert_ne.
Qed.

(** ** [coupling] *)

Lemma name_ref_some c n x : name_ref c n = Some x -> x ∈ known_class_names /\ x ≠ c.
Proof.
  destruct n as [a b|id|kind]; simpl; try discriminate.
  case_decide as Hd; [|discriminate]. intros [= <-]. exact Hd.
Qed.

Lemma reachable_coupling s :
  reachable s -> forall k x, x ∈ cpl_view s k -> x ∈ known_class_names /\ x ≠ k.
Proof.
  induction 1 as [| c s _ IH | k s _ IH | k s _ IH | fuel s lines s' _ IH Hrep];
    intros k' x Hx.
  - replace (cpl_view init k') with (∅ : gset string) in Hx by reflexivity. set_solver.
  - rewrite visit_ClassDef_cpl in Hx. apply elem_of_union in Hx as [Hx|Hx]; [eauto|].
    case_decide as Hck; [|set_solver]. subst k'.
    apply elem_of_union_list in Hx as (X & HX & Hx).
    apply list_elem_of_fmap in HX as (f & -> & _).
    unfold method_refs in Hx. apply elem_of_list_to_set, list_elem_of_omap in Hx as (n & _ & Hn).
    by apply (name_ref_some (cd_name c) n).
  - destruct (calculate_cbo_frame s k) as (_ & _ & _ & _ & Hcp & _).
    unfold cpl_view in Hx. rewrite (dd_extends_view _ _ _ _ Hcp) in Hx. eauto.
  - destruct (calculate_lcom_frame s k) as (_ & _ & _ & _ & Hcp & _).
    unfold cpl_view in Hx. rewrite (dd_extends_view _ _ _ _ Hcp) in Hx. eauto.
  - destruct (generate_report_lines_frame _ _ _ _ Hrep) as (_ & _ & Hcp & _).
    unfold cpl_view in Hx. rewrite (dd_extends_view _ _ _ _ Hcp) in Hx. eauto.
Qed.

Lemma reachable_classes_attributes s :
  reachable s -> forall k info, classes s !! k = Some info -> ci_attributes info = ∅.
Proof.
  induction 1 as [| c s _ IH | k s _ IH | k s _ IH | fuel s lines s' _ IH Hrep];
    intros k' info Hk.
  - discriminate.
  - rewrite visit_ClassDef_classes, lookup_insert in Hk.
    case_decide; [by injection Hk as <- | eauto].
  - rewrite (proj1 (calculate_cbo_frame s k)) in Hk. eauto.
  - rewrite (proj1 (calculate_lcom_frame s k)) in Hk. eauto.
  - rewrite (proj1 (generate_report_lines_frame _ _ _ _ Hrep)) in Hk. eauto.
Qed.

(** ** The pair scan, bounded *)

Lemma length_pairs {A} (l : list A) : 2 * length (pairs l) = length l * (length l - 1).
Proof.
  induction l as [|x l IH]; simpl; [done|].
  rewrite length_app, length_map. destruct (length l) as [|n]; simpl in *; nia.
Qed.

Lemma elem_of_pairs {A} (l : list A) x y : (x, y) ∈ pairs l -> x ∈ l /\ y ∈ l.
Proof.
  induction l as [|z l IH]; simpl; [by intros ?%elem_of_nil|].
  rewrite elem_of_app, list_elem_of_fmap, !elem_of_cons.
  intros [(w & [= -> ->] & Hw)|Hp]; [auto|]. destruct (IH Hp); auto.
Qed.

Lemma filter_none {A} (P : A -> Prop) `{forall x, Decision (P x)} (l : list A) :
  (forall x, x ∈ l -> ~ P x) -> filter P l = [].
Proof.
  induction l as [|x l IH]; intros Hl; [done|].
  rewrite filter_cons_False; [|apply Hl, elem_of_cons; auto].
  apply IH. intros y Hy. apply Hl, elem_of_cons; auto.
Qed.

(** ** Properties of the analyzer *)

(** X1 (report rows): when [generate_report] returns, its lines are the
    fixed header, CC, LOC and table-header sections, then one row for each of
    Person, Student, Course, Lecturer, Registrar (in that order) that is
    registered in [classes], then the fixed problem section; every row shows
    the metrics of the state the report started from. *)
Theorem generate_report_lines_rows (fuel : nat) (s : MetricsAnalyzer)
    (lines : list string) (s' : MetricsAnalyzer) :
  generate_report_lines fuel s = Some (lines, s') ->
  exists rows, rows_of fuel s report_classes = Some rows /\
    lines = report_header ++ cc_section ++ loc_section ++ oo_header ++ rows ++ problem_section.
Proof.
  unfold generate_report_lines. intros H.
  pose proof (report_rows_spec fuel report_classes s) as Hs.
  destruct (report_rows fuel report_classes s) as [[rows s1]|]; [|discriminate].
  injection H as <- _. exists rows. split; [apply Hs | done].
Qed.

Lemma generate_report_lines_rows_witness :
  generate_report_lines 10 (build sample_module) <> None /\
  forall lines s', generate_report_lines 10 (build sample_module) = Some (lines, s') ->
  exists rows, rows_of 10 (build sample_module) report_classes = Some rows /\
    lines = report_header ++ cc_section ++ loc_section ++ oo_header ++ rows ++ problem_section.
Proof.
  split; [vm_compute; discriminate|].
  intros lines s' H. exact (generate_report_lines_rows 10 (build sample_module) lines s' H).
Defined.

(** X2 (report termination): [generate_report] returns (for a large enough
    bound on the loop) exactly when the [calculate_dit] loop returns for every
    registered class among the five reported names. *)
Theorem generate_report_returns_iff_dit_returns (s : MetricsAnalyzer) :
  (exists fuel txt, generate_report fuel s = Some txt) <->
  (forall n, n ∈ report_classes -> is_Some (classes s !! n) ->
     exists fuel d, calculate_dit fuel s n = Some d).
Proof.
  unfold generate_report, generate_report_lines. split.
  - intros (fuel & txt & H) n Hn Hr.
    pose proof (report_rows_spec fuel report_classes s) as Hs.
    destruct (report_rows fuel report_classes s) as [[rows s1]|]; [|discriminate].
    destruct Hs as [_ Hrows]. exists fuel.
    destruct (calculate_dit fuel s n) as [d|] eqn:Ed; [eauto|].
    assert (rows_of fuel s report_classes = None) by (apply rows_of_None; eauto).
    congruence.
  - intros Hall. destruct (uniform_fuel s report_classes Hall) as [f Hf]. exists f.
    pose proof (report_rows_spec f report_classes s) as Hs.
    destruct (report_rows f report_classes s) as [[rows s1]|]; [eauto|].
    apply rows_of_None in Hs as (n & Hn & Hr & Hd).
    destruct (Hf n Hn Hr) as [d Hd']. congruence.
Qed.

(** X3 (report repeatable): the entries [generate_report] adds to the
    [defaultdict]s do not change a later report: generating it again on the
    resulting state gives the same lines. *)
Theorem generate_report_lines_repeatable (fuel : nat) (s : MetricsAnalyzer)
    (lines : list string) (s' : MetricsAnalyzer) :
  generate_report_lines fuel s = Some (lines, s') ->
  exists s'', generate_report_lines fuel s' = Some (lines, s'').
Proof.
  unfold generate_report_lines. intros H.
  pose proof (report_rows_spec fuel report_classes s) as Hs.
  destruct (report_rows fuel report_classes s) as [[rows s1]|]; [|discriminate].
  injection H as <- <-. destruct Hs as [F Hrows].
  pose proof (report_rows_spec fuel report_classes s1) as Hs1.
  rewrite (rows_of_frame s s1) in Hs1 by done.
  destruct (report_rows fuel report_classes s1) as [[rows' s2]|].
  - destruct Hs1 as [_ Hr']. rewrite Hrows in Hr'. injection Hr' as ->. eauto.
  - congruence.
Qed.

Lemma generate_report_lines_repeatable_witness :
  generate_report_lines 10 (build sample_module) <> None /\
  forall lines s', generate_report_lines 10 (build sample_module) = Some (lines, s') ->
  exists s'', generate_report_lines 10 s' = Some (lines, s'').
Proof.
  split; [vm_compute; discriminate|].
  intros lines s' H. exact (generate_report_lines_repeatable 10 (build sample_module) lines s' H).
Defined.

(** X4 (coupling bound): in every state the program reaches, the coupling
    set of a class holds only names of the hard-coded list other than the
    class itself; so CBO is at most 5, and at most 4 for a name of that list. *)
Theorem calculate_cbo_bounded (s : MetricsAnalyzer) (k : string) :
  reachable s ->
  cpl_view s k ⊆ list_to_set known_class_names ∖ {[k]} /\
  fst (calculate_cbo k s) <= 5 /\
  (k ∈ known_class_names -> fst (calculate_cbo k s) <= 4).
Proof.
  intros Hs. pose proof (reachable_coupling s Hs k) as Hk.
  assert (Hsub : cpl_view s k ⊆ list_to_set known_class_names ∖ {[k]}).
  { intros x Hx. destruct (Hk x Hx) as [H1 H2].
    apply elem_of_difference. rewrite elem_of_list_to_set. set_solver. }
  assert (H5 : size (list_to_set known_class_names : gset string) = 5) by reflexivity.
  rewrite calculate_cbo_views. split_and!; [done| |].
  - etransitivity; [apply subseteq_size, Hsub|].
    etransitivity; [apply subseteq_size, subseteq_difference_l; reflexivity|]. lia.
  - intros Hkn. etransitivity; [apply subseteq_size, Hsub|].
    rewrite size_difference, size_singleton; [lia|].
    apply singleton_subseteq_l, elem_of_list_to_set, Hkn.
Qed.

Lemma calculate_cbo_bounded_witness :
  cpl_view (build sample_module) "Student" ⊆ list_to_set known_class_names ∖ {[ "Student" ]} /\
  fst (calculate_cbo "Student" (build sample_module)) <= 5 /\
  ("Student" ∈ known_class_names -> fst (calculate_cbo "Student" (build sample_module)) <= 4).
Proof.
  apply (calculate_cbo_bounded (build sample_module) "Student"
           (reachable_build _ _ reach_init)).
Defined.

(** X5 (attributes field): in every state the program reaches, the
    ['attributes'] set of every [classes] entry is empty: [analyze_method]
    adds the [self] attributes to [attributes_per_class] only. *)
Theorem classes_attributes_always_empty (s : MetricsAnalyzer) (k : string) (info : class_info) :
  reachable s -> classes s !! k = Some info -> ci_attributes info = ∅.
Proof. intros Hs. apply (reachable_classes_attributes s Hs). Qed.

Lemma classes_attributes_always_empty_witness :
  ci_attributes (class_info_of (mkClassDef "Student" [BaseName "Person"]
     [fn "register_course" [Attribute (Some "self") "courses"; Name "Course"];
      fn "add_grade" [Attribute (Some "self") "grades"; Name "Course"; Name "Lecturer"]])) = ∅.
Proof.
  apply (classes_attributes_always_empty (build sample_module) "Student");
    [apply (reachable_build _ _ reach_init) | vm_compute; reflexivity].
Defined.

(** X6 (classes registry): after visiting a module, [classes[k]] holds the
    method names, base labels and body length of the LAST declaration named
    [k], and is missing when no declaration has that name. *)
Theorem build_classes_last_declaration (m : module) (k : string) :
  classes (build m) !! k = option_map class_info_of (last (defs_named m k)).
Proof.
  unfold build. rewrite build_classes. by destruct (last (defs_named m k)).
Qed.

(** X7 (methods accumulate): after visiting a module,
    [methods_per_class[k]] lists the method names of EVERY declaration named
    [k], in order and with repetitions; so the Methods column counts them all. *)
Theorem build_methods_per_class_all_declarations (m : module) (k : string) :
  mpc_view (build m) k = map fd_name (methods_of m k).
Proof.
  unfold build. rewrite (proj1 (build_views m init k "")). reflexivity.
Qed.

(** X8 (attributes accumulate): after visiting a module,
    [attributes_per_class[k]] is the set of [self] attributes used by the
    methods of every declaration named [k]; the Attributes column is its size. *)
Theorem build_attributes_per_class (m : module) (k : string) :
  apc_view (build m) k = ⋃ (map self_attrs (methods_of m k)).
Proof.
  unfold build. rewrite build_apc.
  replace (apc_view init k) with (∅ : gset string) by reflexivity. set_solver.
Qed.

(** X9 (LCOM range): LCOM is never negative and never exceeds the number
    of method pairs n(n-1)/2, where n is the length of
    [methods_per_class[k]] (repetitions included). *)
Theorem calculate_lcom_range (s : MetricsAnalyzer) (k : string) :
  (0 <= lcom_num (fst (calculate_lcom k s)))%Z /\
  (2 * lcom_num (fst (calculate_lcom k s)) <=
     Z.of_nat (length (mpc_view s k) * (length (mpc_view s k) - 1)))%Z.
Proof.
  rewrite calculate_lcom_views. unfold spec_lcom, spec_P.
  set (sets := map (mau_view s k) (mpc_view s k)).
  pose proof (length_filter (fun ab : gset string * gset string => ab.1 ∩ ab.2 = ∅) (pairs sets)).
  pose proof (length_pairs sets) as Hp.
  assert (Hl : length sets = length (mpc_view s k)) by apply length_map.
  rewrite Hl in Hp. rewrite <- Hp. lia.
Qed.

(** X10 (shared attribute): when one attribute is in the usage set of every
    method name of [k], every pair shares attributes and LCOM is 0. *)
Theorem calculate_lcom_zero_if_attribute_shared (s : MetricsAnalyzer) (k a : string) :
  Forall (fun j => a ∈ mau_view s k j) (mpc_view s k) ->
  lcom_num (fst (calculate_lcom k s)) = 0%Z.
Proof.
  intros Hall. rewrite calculate_lcom_views. unfold spec_lcom, spec_P.
  rewrite filter_none; [simpl; lia|].
  intros [x y] Hxy Hd. apply elem_of_pairs in Hxy as [Hx Hy].
  apply list_elem_of_fmap in Hx as (jx & -> & Hjx), Hy as (jy & -> & Hjy).
  rewrite Forall_forall in Hall.
  assert (a ∈ mau_view s k jx ∩ mau_view s k jy) by (apply elem_of_intersection; auto).
  simpl in Hd. set_solver.
Qed.

Lemma calculate_lcom_zero_if_attribute_shared_witness :
  length (mpc_view (build account_module) "Account") = 3 /\
  lcom_num (fst (calculate_lcom "Account" (build account_module))) = 0%Z.
Proof.
  split; [vm_compute; reflexivity|].
  apply (calculate_lcom_zero_if_attribute_shared (build account_module) "Account" "_history").
  apply (bool_decide_unpack _). vm_compute. exact I.
Defined.




Lemma rows_of_unregistered fuel s (names : list string) :
  (forall n, n ∈ names -> classes s !! n = None) -> rows_of fuel s names = Some [].
Proof.
  induction names as [|n names IH]; intros Hn; simpl; [done|].
  rewrite decide_False; [apply IH; intros x Hx; apply Hn, elem_of_cons; auto|].
  rewrite Hn by (apply elem_of_cons; auto). apply is_Some_None.
Qed.

(** X13 (no reported class): when a module declares none of Person,
    Student, Course, Lecturer and Registrar (an empty module in particular),
    [analyze_file] returns the fixed sections with an empty metrics table. *)
Theorem analyze_file_without_reported_classes (fuel : nat) (m : module) :
  Forall (fun c => cd_name c ∉ report_classes) m ->
  analyze_file fuel m =
    Some (String.concat "
" (report_header ++ cc_section ++ loc_section ++ oo_header ++ problem_section)).
Proof.
  intros Hm. unfold analyze_file, generate_report, generate_report_lines.
  assert (Hreg : forall n, n ∈ report_classes -> classes (build m) !! n = None).
  { intros n Hn. unfold build. rewrite build_classes.
    unfold defs_named. rewrite (filter_none (fun c : ClassDef => cd_name c = n)); [done|].
    intros c Hc Heq. rewrite <- Heq in Hn. rewrite Forall_forall in Hm. exact (Hm c Hc Hn). }
  pose proof (report_rows_spec fuel report_classes (build m)) as Hs.
  rewrite (rows_of_unregistered fuel (build m) report_classes Hreg) in Hs.
  destruct (report_rows fuel report_classes (build m)) as [[rows s']|]; [|discriminate].
  destruct Hs as [_ [= <-]]. reflexivity.
Qed.

Lemma analyze_file_without_reported_classes_witness :
  analyze_file 0 foo_bar_module =
    Some (String.concat "
" (report_header ++ cc_section ++ loc_section ++ oo_header ++ problem_section)).
Proof.
  apply (analyze_file_without_reported_classes 0 foo_bar_module).
  apply (bool_decide_unpack _). vm_compute. exact I.
Defined.
